(** * salt.crypt: authentication handshake and session envelope

    A shallow embedding of [salt/crypt.py] (Python 2): the [Crypticle]
    authenticated-encryption envelope, the minion side handshake ([Auth]),
    the standalone session driver ([SAuth]) and the master key store
    ([MasterKeys]), followed by the properties proved about them.

    Python byte strings are [list ascii] where the code works on bytes
    (padding, MAC comparison, base64) and [string] where it works on text
    (dictionary keys, paths, PEM files).  Dictionaries are [gmap string _].
    Effects (files, randomness, the request channel, [time.sleep]) are
    threaded through an explicit [world]; exceptions and [sys.exit] are
    outcomes of a computation.  Logging calls are not modelled. *)

From Stdlib Require Import ZArith NArith List Lia String Ascii Bool.
From stdpp Require Import base gmap strings list.

#[local] Set Warnings "-register-all".
#[local] Open Scope Z_scope.

(* ================================================================== *)
(** * Python values, exceptions and the effect monad *)
(* ================================================================== *)

Abbreviation bytes := (list ascii).

(** The part of Python's value universe that configuration and wire
    payloads use. *)
Inductive pyval :=
  | VNone
  | VBool (b : bool)
  | VInt (z : Z)
  | VStr (s : string)
  | VDict (d : gmap string pyval).

Abbreviation pydict := (gmap string pyval).

(** Python truthiness ([if x:], [not x]). *)
Definition truthy (v : pyval) : bool :=
  match v with
  | VNone => false
  | VBool b => b
  | VInt z => negb (z =? 0)
  | VStr s => negb (bool_decide (s = ""%string))
  | VDict d => negb (bool_decide (d = ∅))
  end.

(** [v == s] for a string literal or variable [s]. *)
Definition eq_str (v : pyval) (s : string) : bool :=
  match v with
  | VStr s' => bool_decide (s' = s)
  | _ => false
  end.

Inductive exn :=
  | AuthenticationError
  | AssertionError
  | IndexError
  | KeyError (k : string)
  | TypeError
  | ValueError
  | IOError
  | RSAError
  | BinasciiError
  | SaltReqTimeoutError
  | SaltClientError.

#[global] Instance exn_eq_dec : EqDecision exn.
Proof. solve_decision. Defined.

(** How a call ends: a value, a raised exception, [sys.exit(code)], or
    (for the unbounded retry loop only) exhaustion of the iteration
    budget given to the model. *)
Inductive outcome (A : Type) :=
  | Ret (a : A)
  | Raise (e : exn)
  | Exit (code : Z)
  | OutOfFuel.
Arguments Ret {A} a.
Arguments Raise {A} e.
Arguments Exit {A} code.
Arguments OutOfFuel {A}.

(** One use of the AES cipher object. *)
Inductive aes_op :=
  | AesEncrypt (key iv data : bytes)
  | AesDecrypt (key iv data : bytes).

(** The environment the module acts on. *)
Record world := World {
  w_fs : gmap string string;          (* regular files: path -> content *)
  w_tape : nat -> ascii;              (* the bytes os.urandom will deliver *)
  w_pos : nat;                        (* bytes of the tape already used *)
  w_seed : nat;                       (* draws made from the OpenSSL RNG *)
  w_net : list (option pydict);       (* replies to come; None = time out *)
  w_sent : list pydict;               (* requests sent, oldest first *)
  w_slept : list Z;                   (* arguments of time.sleep, oldest first *)
  w_aes : list aes_op                 (* cipher invocations, oldest first *)
}.

Definition set_fs (f : gmap string string -> gmap string string) (w : world) : world :=
  World (f (w_fs w)) (w_tape w) (w_pos w) (w_seed w) (w_net w) (w_sent w) (w_slept w) (w_aes w).

Definition M (A : Type) : Type := world -> outcome A * world.

Definition ret {A} (a : A) : M A := fun w => (Ret a, w).
Definition raise {A} (e : exn) : M A := fun w => (Raise e, w).
Definition sys_exit {A} (code : Z) : M A := fun w => (Exit code, w).

Definition bind {A B} (m : M A) (k : A -> M B) : M B :=
  fun w =>
    match m w with
    | (Ret a, w') => k a w'
    | (Raise e, w') => (Raise e, w')
    | (Exit c, w') => (Exit c, w')
    | (OutOfFuel, w') => (OutOfFuel, w')
    end.

Declare Scope py_scope.
Delimit Scope py_scope with py.
Notation "x <- m ;; k" := (bind m (fun x => k))
  (at level 100, m at next level, right associativity) : py_scope.
Notation "m ;;; k" := (bind m (fun _ => k))
  (at level 100, right associativity) : py_scope.
#[local] Open Scope py_scope.

(** [try: m except <handled>: h e].  Effects of [m] before the exception
    stay; [sys.exit] and fuel exhaustion are not exceptions of the
    handled classes and pass through. *)
Definition try_except {A} (m : M A) (handled : exn -> bool) (h : exn -> M A) : M A :=
  fun w =>
    match m w with
    | (Raise e, w') => if handled e then h e w' else (Raise e, w')
    | r => r
    end.

(** [except Exception]: every exception of the model. *)
Definition any_exception (e : exn) : bool := true.

Definition is_KeyError (e : exn) : bool :=
  match e with KeyError _ => true | _ => false end.

Definition is_SaltReqTimeoutError (e : exn) : bool :=
  match e with SaltReqTimeoutError => true | _ => false end.

Definition from_option {A} (e : exn) (o : option A) : M A :=
  match o with
  | Some a => ret a
  | None => raise e
  end.

(** [d[k]] *)
Definition getitem (d : pydict) (k : string) : M pyval :=
  from_option (KeyError k) (d !! k).

(** [k in d] *)
Definition contains (d : pydict) (k : string) : bool :=
  bool_decide (is_Some (d !! k)).

(** [d.get(k, default)] *)
Definition dict_get (d : pydict) (k : string) (default : pyval) : pyval :=
  match d !! k with
  | Some v => v
  | None => default
  end.

(** A value used where the library call needs a string. *)
Definition as_str (v : pyval) : M string :=
  match v with
  | VStr s => ret s
  | _ => raise TypeError
  end.

(** [os.urandom(n)] *)
Definition urandom (n : Z) : M bytes :=
  fun w =>
    if n <? 0 then (Raise ValueError, w)
    else
      let k := Z.to_nat n in
      (Ret (map (w_tape w) (seq (w_pos w) k)),
       World (w_fs w) (w_tape w) (w_pos w + k)%nat (w_seed w) (w_net w)
             (w_sent w) (w_slept w) (w_aes w)).

(** A draw from the OpenSSL random number generator (key generation,
    OAEP padding): the caller gets the number of the draw. *)
Definition openssl_draw : M nat :=
  fun w =>
    (Ret (w_seed w),
     World (w_fs w) (w_tape w) (w_pos w) (S (w_seed w)) (w_net w)
           (w_sent w) (w_slept w) (w_aes w)).

(** [time.sleep(t)] *)
Definition sleep (t : Z) : M unit :=
  fun w =>
    (Ret tt,
     World (w_fs w) (w_tape w) (w_pos w) (w_seed w) (w_net w)
           (w_sent w) (w_slept w ++ [t]) (w_aes w)).

Definition log_aes (op : aes_op) : M unit :=
  fun w =>
    (Ret tt,
     World (w_fs w) (w_tape w) (w_pos w) (w_seed w) (w_net w)
           (w_sent w) (w_slept w) (w_aes w ++ [op])).

(** [os.path.exists(p)] / [os.path.isfile(p)]: only regular files are
    modelled. *)
Definition path_exists (p : string) : M bool :=
  fun w => (Ret (bool_decide (is_Some (w_fs w !! p))), w).

(** [salt.utils.fopen(p).read()] *)
Definition read_file (p : string) : M string :=
  fun w =>
    match w_fs w !! p with
    | Some s => (Ret s, w)
    | None => (Raise IOError, w)
    end.

(** [salt.utils.fopen(p, 'w+')]: creates or truncates the file. *)
Definition open_truncate (p : string) : M unit :=
  fun w => (Ret tt, set_fs (insert p ""%string) w).

(** [f.write(s)] on a file just opened for writing. *)
Definition write_to (p : string) (s : string) : M unit :=
  fun w => (Ret tt, set_fs (insert p s) w).

(** ** Slices of Python sequences *)

(** [l[-n:]] for [n >= 0] *)
Definition py_suffix {A} (n : nat) (l : list A) : list A :=
  match n with
  | O => l
  | _ => drop (length l - n) l
  end.

(** [l[:-n]] for [n >= 0] *)
Definition py_drop_suffix {A} (n : nat) (l : list A) : list A :=
  match n with
  | O => []
  | _ => take (length l - n) l
  end.

(* ================================================================== *)
(** * The base64 codec of the Python 2 standard library *)
(* ================================================================== *)

(** [str.encode('base64')] and [str.decode('base64')] are library code
    outside the repository.  They are modelled after [base64.encodestring]
    (a [binascii.b2a_base64] line, ended by a newline, per 57 input bytes)
    and [binascii.a2b_base64] (a 6-bit accumulator that skips characters
    outside the alphabet and stops at a pad sequence). *)
Module Base64.

#[local] Open Scope N_scope.

Definition PAD : ascii := "="%char.
Definition NL : ascii := "010"%char.
Definition MAXBINSIZE : nat := 57.

(** [table_b2a_base64[i]] *)
Definition b2a_char (i : N) : ascii :=
  if i <? 26 then ascii_of_N (65 + i)
  else if i <? 52 then ascii_of_N (97 + (i - 26))
  else if i <? 62 then ascii_of_N (48 + (i - 52))
  else if i =? 62 then "+"%char
  else "/"%char.

(** [table_a2b_base64[c]] for a character that is not the pad; [None]
    stands for the entry -1. *)
Definition a2b_index (c : ascii) : option N :=
  let n := N_of_ascii c in
  if (65 <=? n) && (n <=? 90) then Some (n - 65)
  else if (97 <=? n) && (n <=? 122) then Some (n - 97 + 26)
  else if (48 <=? n) && (n <=? 57) then Some (n - 48 + 52)
  else if n =? 43 then Some 62
  else if n =? 47 then Some 63
  else None.

(** The base64 text of a byte string, without line structure. *)
Fixpoint b2a_groups (l : bytes) : bytes :=
  match l with
  | [] => []
  | [a] =>
      let x := N_of_ascii a in
      [b2a_char (x / 4); b2a_char ((x mod 4) * 16); PAD; PAD]
  | [a; b] =>
      let x := N_of_ascii a in
      let y := N_of_ascii b in
      [b2a_char (x / 4); b2a_char ((x mod 4) * 16 + y / 16);
       b2a_char ((y mod 16) * 4); PAD]
  | a :: b :: c :: rest =>
      let x := N_of_ascii a in
      let y := N_of_ascii b in
      let z := N_of_ascii c in
      b2a_char (x / 4) :: b2a_char ((x mod 4) * 16 + y / 16)
        :: b2a_char ((y mod 16) * 4 + z / 64) :: b2a_char (z mod 64)
        :: b2a_groups rest
  end.

(** [binascii.b2a_base64(chunk)] *)
Definition b2a_base64 (chunk : bytes) : bytes := b2a_groups chunk ++ [NL].

(** The pieces [s[i:i+n]] for [i] in [range(0, len(s), n)]. *)
Fixpoint chunks (fuel : nat) (n : nat) (s : bytes) : list bytes :=
  match fuel, s with
  | _, [] => []
  | O, _ => []
  | S fuel', _ => take n s :: chunks fuel' n (drop n s)
  end.

(** [s.encode('base64')] *)
Definition encodestring (s : bytes) : bytes :=
  concat (map b2a_base64 (chunks (length s) MAXBINSIZE s)).

(** The character a pad at the head of [s] is checked against:
    [binascii_find_valid(s, len, num)]. *)
Fixpoint find_valid (s : bytes) (num : nat) : option ascii :=
  match s with
  | [] => None
  | c :: rest =>
      if (N_of_ascii c <=? 127) && (bool_decide (c = PAD) || bool_decide (is_Some (a2b_index c)))
      then match num with
           | O => Some c
           | S num' => find_valid rest num'
           end
      else find_valid rest num
  end.

(** The decoding loop of [binascii.a2b_base64], with [leftchar],
    [leftbits] and [quad_pos] as arguments. *)
Fixpoint a2b_loop (s : bytes) (leftchar leftbits quad_pos : N) : option bytes :=
  match s with
  | [] => if leftbits =? 0 then Some [] else None
  | c :: rest =>
      if (127 <? N_of_ascii c) || bool_decide (c = "013"%char) || bool_decide (c = NL)
         || bool_decide (c = " "%char)
      then a2b_loop rest leftchar leftbits quad_pos
      else if bool_decide (c = PAD) then
        if (quad_pos <? 2)
           || ((quad_pos =? 2) && negb (bool_decide (find_valid s 1 = Some PAD)))
        then a2b_loop rest leftchar leftbits quad_pos
        else Some []
      else
        match a2b_index c with
        | None => a2b_loop rest leftchar leftbits quad_pos
        | Some v =>
            let quad_pos' := (quad_pos + 1) mod 4 in
            let leftchar' := leftchar * 64 + v in
            let leftbits' := leftbits + 6 in
            if 8 <=? leftbits' then
              let leftbits'' := leftbits' - 8 in
              match a2b_loop rest (leftchar' mod 2 ^ leftbits'') leftbits'' quad_pos' with
              | Some out => Some (ascii_of_N ((leftchar' / 2 ^ leftbits'') mod 256) :: out)
              | None => None
              end
            else a2b_loop rest leftchar' leftbits' quad_pos'
        end
  end.

(** [s.decode('base64')]; [None] is [binascii.Error: Incorrect padding]. *)
Definition decodestring (s : bytes) : option bytes := a2b_loop s 0 0 0.

End Base64.

(** [s.replace(c, '')] for a single character [c] *)
Definition remove_char (c : ascii) (s : bytes) : bytes :=
  filter (fun x => x <> c) s.

(* ================================================================== *)
(** * Crypticle: AES-CBC with an HMAC-SHA256 signature *)
(* ================================================================== *)

(** The two primitives [Crypticle] takes from [hmac]/[hashlib] and
    PyCrypto.  [aes_cbc_encrypt key iv data] is
    [AES.new(key, AES.MODE_CBC, iv).encrypt(data)]; [None] means that
    PyCrypto raised [ValueError] (key or IV of a wrong length, data not a
    whole number of blocks). *)
Class CipherPrims := {
  hmac_sha256 : bytes -> bytes -> bytes;
  aes_cbc_encrypt : bytes -> bytes -> bytes -> option bytes;
  aes_cbc_decrypt : bytes -> bytes -> bytes -> option bytes
}.

Module Crypticle.
Section Crypticle.
Context {CP : CipherPrims}.

Definition AES_BLOCK_SIZE : nat := 16.
(** [hashlib.sha256().digest_size] *)
Definition SIG_SIZE : nat := 32.

(** The object: [self.keys] and [self.key_size] (the serializer is an
    external collaborator). *)
Record t := Build {
  keys : bytes * bytes;
  key_size : Z
}.

Definition generate_key_string (key_size : Z) : M bytes :=
  key <- urandom (key_size / 8 + Z.of_nat SIG_SIZE) ;;
  ret (remove_char Base64.NL (Base64.encodestring key)).

Definition extract_keys (key_string : bytes) (key_size : Z) : M (bytes * bytes) :=
  key <- from_option BinasciiError (Base64.decodestring key_string) ;;
  if bool_decide (Z.of_nat (length key) = key_size / 8 + Z.of_nat SIG_SIZE)
  then ret (py_drop_suffix SIG_SIZE key, py_suffix SIG_SIZE key)
  else raise AssertionError.

Definition __init__ (key_string : bytes) (key_size : Z) : M t :=
  ks <- extract_keys key_string key_size ;;
  ret (Build ks key_size).

Definition encrypt (self : t) (data : bytes) : M bytes :=
  let aes_key := fst (keys self) in
  let hmac_key := snd (keys self) in
  let pad := (AES_BLOCK_SIZE - length data mod AES_BLOCK_SIZE)%nat in
  let data := data ++ replicate pad (ascii_of_nat pad) in
  iv_bytes <- urandom (Z.of_nat AES_BLOCK_SIZE) ;;
  log_aes (AesEncrypt aes_key iv_bytes data) ;;;
  ct <- from_option ValueError (aes_cbc_encrypt aes_key iv_bytes data) ;;
  let data := iv_bytes ++ ct in
  let sig := hmac_sha256 hmac_key data in
  ret (data ++ sig).

(** The accumulator of the comparison loop:
    [result |= ord(x) ^ ord(y)] over [zip(mac_bytes, sig)]. *)
Definition mac_diff (mac_bytes sig : bytes) : N :=
  fold_left (fun result xy => N.lor result (N.lxor (N_of_ascii (fst xy)) (N_of_ascii (snd xy))))
            (zip mac_bytes sig) 0%N.

Definition decrypt (self : t) (data : bytes) : M bytes :=
  let aes_key := fst (keys self) in
  let hmac_key := snd (keys self) in
  let sig := py_suffix SIG_SIZE data in
  let data := py_drop_suffix SIG_SIZE data in
  let mac_bytes := hmac_sha256 hmac_key data in
  if negb (length mac_bytes =? length sig)%nat then raise AuthenticationError
  else if negb (mac_diff mac_bytes sig =? 0)%N then raise AuthenticationError
  else
    let iv_bytes := take AES_BLOCK_SIZE data in
    let data := drop AES_BLOCK_SIZE data in
    log_aes (AesDecrypt aes_key iv_bytes data) ;;;
    data <- from_option ValueError (aes_cbc_decrypt aes_key iv_bytes data) ;;
    c <- from_option IndexError (last data) ;;
    ret (py_drop_suffix (nat_of_ascii c) data).

End Crypticle.
End Crypticle.

(* ================================================================== *)
(** * Paths, text and the RSA library *)
(* ================================================================== *)

(** [s.startswith(p)] *)
Fixpoint startswith (p s : string) : bool :=
  match p, s with
  | EmptyString, _ => true
  | String a p', String b s' => bool_decide (a = b) && startswith p' s'
  | String _ _, EmptyString => false
  end.

(** [s.endswith('/')] *)
Fixpoint ends_with_slash (s : string) : bool :=
  match s with
  | EmptyString => false
  | String c EmptyString => bool_decide (c = "/"%char)
  | String _ s' => ends_with_slash s'
  end.

(** [os.path.join(a, b)] of [posixpath]. *)
Definition path_join (a b : string) : string :=
  if startswith "/" b then b
  else if bool_decide (a = ""%string) || ends_with_slash a then a +:+ b
  else a +:+ "/" +:+ b.

(** [sep in s] *)
Fixpoint str_contains (sep s : string) : bool :=
  if startswith sep s then true
  else match s with
       | EmptyString => false
       | String _ s' => str_contains sep s'
       end.

(** [s.split(sep)] for a non-empty [sep]: [skip] characters of a
    separator just found are still to be passed, [cur] is the piece
    being collected. *)
Fixpoint split_from (sep : string) (skip : nat) (cur : string) (s : string) : list string :=
  match s with
  | EmptyString => [cur]
  | String c s' =>
      match skip with
      | S k => split_from sep k cur s'
      | O =>
          if startswith sep s
          then cur :: split_from sep (String.length sep - 1) ""%string s'
          else split_from sep 0 (cur +:+ String c ""%string) s'
      end
  end.

Definition str_split (sep s : string) : list string := split_from sep 0 ""%string s.

(** [binascii.a2b_base64(s)] on text. *)
Definition a2b_base64 (s : string) : M string :=
  b <- from_option BinasciiError (Base64.decodestring (list_ascii_of_string s)) ;;
  ret (string_of_list_ascii b).

(** [RSA.pkcs1_oaep_padding] of M2Crypto. *)
Definition pkcs1_oaep_padding : Z := 4.

(** What the module takes from M2Crypto, [hashlib] and [salt.utils].
    Keys are abstract; a PEM file is its text.  [None] stands for the
    error the library raises ([RSA.RSAError]); random choices of OpenSSL
    are made explicit by the number of the draw. *)
Class RsaPrims := {
  privkey : Type;
  pubkey : Type;
  rsa_parse_key : string -> option privkey;        (* PEM text of a private key *)
  rsa_parse_pub_key : string -> option pubkey;     (* PEM text of a public key *)
  rsa_key_pem : privkey -> string;                 (* what save_key writes *)
  rsa_pub_pem : privkey -> string;                 (* what save_pub_key writes *)
  rsa_gen_key : Z -> nat -> privkey;               (* RSA.gen_key(bits, 65537) *)
  rsa_private_encrypt : privkey -> string -> Z -> option string;
  rsa_private_decrypt : privkey -> string -> Z -> option string;
  rsa_public_encrypt : pubkey -> string -> Z -> nat -> option string;
  rsa_public_decrypt : pubkey -> string -> Z -> option string;
  evp_verify_final : pubkey -> string -> string -> Z;
  sha256_hexdigest : string -> string;
  path_traversal_ok : gmap string string -> string -> pyval -> bool;
  pem_finger_of : gmap string string -> string -> string
}.

Section Rsa.
Context {RP : RsaPrims}.

(** [RSA.load_key(path)] *)
Definition RSA_load_key (path : string) : M privkey :=
  s <- try_except (read_file path) any_exception (fun _ => raise RSAError) ;;
  from_option RSAError (rsa_parse_key s).

(** [RSA.load_pub_key(path)] *)
Definition RSA_load_pub_key (path : string) : M pubkey :=
  s <- try_except (read_file path) any_exception (fun _ => raise RSAError) ;;
  from_option RSAError (rsa_parse_pub_key s).

(** [salt.utils.verify.check_path_traversal(path, user)] *)
Definition check_path_traversal (path : string) (user : pyval) : M unit :=
  fun w => if path_traversal_ok (w_fs w) path user then (Ret tt, w)
           else (Raise SaltClientError, w).

(** [salt.utils.pem_finger(path)] *)
Definition pem_finger (path : string) : M string :=
  fun w => (Ret (pem_finger_of (w_fs w) path), w).

Definition as_int (v : pyval) : M Z :=
  match v with
  | VInt z => ret z
  | VBool b => ret (if b then 1 else 0)
  | _ => raise TypeError
  end.

(** Generate a keypair for use with salt.  File modes and ownership
    ([umask], [chmod], [chown]) are outside the model. *)
Definition gen_keys (keydir keyname : string) (keysize user : pyval) : M string :=
  let base := path_join keydir keyname in
  let priv := base +:+ ".pem" in
  let pub := base +:+ ".pub" in
  bits <- as_int keysize ;;
  seed <- openssl_draw ;;
  let gen := rsa_gen_key bits seed in
  write_to priv (rsa_key_pem gen) ;;;
  write_to pub (rsa_pub_pem gen) ;;;
  ret priv.

(** Use M2Crypto's EVP functions to verify the signature on a message. *)
Definition verify_signature (pubkey_path : string) (message : pyval) (signature : string) : M Z :=
  pk <- RSA_load_pub_key pubkey_path ;;
  msg <- as_str message ;;
  ret (evp_verify_final pk msg signature).

End Rsa.

(* ================================================================== *)
(** * MasterKeys: the key pairs of the master *)
(* ================================================================== *)

Module MasterKeys.
Section MasterKeys.
Context {RP : RsaPrims}.

(** The attributes of the object; the ones set only on some branches of
    [__init__] are options. *)
Record t := Build {
  opts : pydict;
  pub_path : string;
  rsa_path : string;
  key : privkey;
  token : string;
  pub_signature : option string;
  sig_path : option string;
  pub_sign_path : option string;
  rsa_sign_path : option string;
  sign_key : option privkey
}.

(** Returns a key object for a key in the pki-dir.  [self] is
    represented by the two attributes the method reads. *)
Definition __get_keys (self_opts : pydict) (self_rsa_path : string) (name : string) : M privkey :=
  pki <- getitem self_opts "pki_dir" ;;
  pki <- as_str pki ;;
  let path := path_join pki (name +:+ ".pem") in
  ex <- path_exists path ;;
  if ex : bool then RSA_load_key path
  else
    pki' <- getitem self_opts "pki_dir" ;;
    pki' <- as_str pki' ;;
    keysize <- getitem self_opts "keysize" ;;
    gen_keys pki' name keysize (dict_get self_opts "user" VNone) ;;;
    RSA_load_key self_rsa_path.

(** Generate the authentication token *)
Definition __gen_token (self_key : privkey) : M string :=
  from_option RSAError (rsa_private_encrypt self_key "salty bacon" 5).

Definition __init__ (opts : pydict) : M t :=
  pki <- getitem opts "pki_dir" ;;
  pki <- as_str pki ;;
  let pub_path := path_join pki "master.pub" in
  let rsa_path := path_join pki "master.pem" in
  key <- __get_keys opts rsa_path "master" ;;
  token <- __gen_token key ;;
  sign <- getitem opts "master_sign_pubkey" ;;
  if truthy sign then
    use_sig <- getitem opts "master_use_pubkey_signature" ;;
    if truthy use_sig then
      signame <- getitem opts "master_pubkey_signature" ;;
      signame <- as_str signame ;;
      let sig_path := path_join pki signame in
      isfile <- path_exists sig_path ;;
      if isfile : bool then
        s <- read_file sig_path ;;
        ret (Build opts pub_path rsa_path key token (Some s) (Some sig_path) None None None)
      else sys_exit 1
    else
      name <- getitem opts "master_sign_key_name" ;;
      name <- as_str name ;;
      let pub_sign_path := path_join pki (name +:+ ".pub") in
      let rsa_sign_path := path_join pki (name +:+ ".pem") in
      sign_key <- __get_keys opts rsa_path name ;;
      ret (Build opts pub_path rsa_path key token None None
                 (Some pub_sign_path) (Some rsa_sign_path) (Some sign_key))
  else
    ret (Build opts pub_path rsa_path key token None None None None None).

End MasterKeys.
End MasterKeys.

(* ================================================================== *)
(** * Auth: the sign-in sequence of a minion *)
(* ================================================================== *)

Module Auth.
Section Auth.
Context {RP : RsaPrims} {CP : CipherPrims}.

Record t := Build {
  opts : pydict;
  token : string;
  pub_path : string;
  rsa_path : string;
  mpub : string
}.

Definition __init__ (opts : pydict) : M t :=
  token <- Crypticle.generate_key_string 192 ;;
  pki <- getitem opts "pki_dir" ;;
  pki <- as_str pki ;;
  let mpub :=
    if contains opts "syndic_master" then "syndic_master.pub"%string
    else if contains opts "alert_master" then "monitor_master.pub"%string
    else "minion_master.pub"%string in
  ret (Build opts (string_of_list_ascii token)
             (path_join pki "minion.pub") (path_join pki "minion.pem") mpub).

Definition pki_dir (self : t) : M string :=
  pki <- getitem (opts self) "pki_dir" ;;
  as_str pki.

(** Returns a key objects for the minion *)
Definition get_keys (self : t) : M privkey :=
  let user := dict_get (opts self) "user" (VStr "root") in
  pki <- pki_dir self ;;
  check_path_traversal pki user ;;;
  ex <- path_exists (rsa_path self) ;;
  if ex : bool then RSA_load_key (rsa_path self)
  else
    pki' <- pki_dir self ;;
    keysize <- getitem (opts self) "keysize" ;;
    gen_keys pki' "minion" keysize (dict_get (opts self) "user" VNone) ;;;
    RSA_load_key (rsa_path self).

(** Encrypt a string with the minion private key to verify identity
    with the master. *)
Definition gen_token (self : t) (clear_tok : string) : M string :=
  k <- get_keys self ;;
  from_option RSAError (rsa_private_encrypt k clear_tok 5).

(** Generates the payload used to authenticate with the master server. *)
Definition minion_sign_in_payload (self : t) : M pydict :=
  id <- getitem (opts self) "id" ;;
  let load := <["id" := id]> (<["cmd" := VStr "_auth"]> (∅ : pydict)) in
  load <- try_except
            (pki <- pki_dir self ;;
             pub <- RSA_load_pub_key (path_join pki (mpub self)) ;;
             seed <- openssl_draw ;;
             tok <- from_option RSAError
                      (rsa_public_encrypt pub (token self) pkcs1_oaep_padding seed) ;;
             ret (<["token" := VStr tok]> load))
            any_exception
            (fun _ => ret load) ;;
  pub_txt <- read_file (pub_path self) ;;
  ret (<["load" := VDict (<["pub" := VStr pub_txt]> load)]>
         (<["enc" := VStr "clear"]> (∅ : pydict))).

(** The last part of [decrypt_aes], reached when the signature check did
    not reject. *)
Definition decrypt_aes_result (key : privkey) (key_str : string) (payload : pydict)
    (master_pub : bool) : M (list string) :=
  if str_contains "_|-" key_str then ret (str_split "_|-" key_str)
  else if contains payload "token" then
    tok <- getitem payload "token" ;;
    tok <- as_str tok ;;
    token <- from_option RSAError (rsa_private_decrypt key tok pkcs1_oaep_padding) ;;
    ret [key_str; token]
  else if negb master_pub then ret [key_str; ""%string]
  else ret [""%string; ""%string].

(** Decrypt the aes seed phrase returned from the master server with the
    rsa host key.  The result is the pair (or the list [split] made) that
    the caller unpacks. *)
Definition decrypt_aes (self : t) (payload : pydict) (master_pub : bool) : M (list string) :=
  key <- get_keys self ;;
  aes <- getitem payload "aes" ;;
  aes <- as_str aes ;;
  key_str <- from_option RSAError (rsa_private_decrypt key aes pkcs1_oaep_padding) ;;
  if contains payload "sig" then
    pki <- pki_dir self ;;
    let m_path := path_join pki (mpub self) in
    ex <- path_exists m_path ;;
    if ex : bool then
      loaded <- try_except (k <- RSA_load_pub_key m_path ;; ret (Some k))
                           any_exception (fun _ => ret None) ;;
      match loaded with
      | None => ret [""%string; ""%string]
      | Some mkey =>
          let digest := sha256_hexdigest key_str in
          sig <- getitem payload "sig" ;;
          sig <- as_str sig ;;
          m_digest <- from_option RSAError (rsa_public_decrypt mkey sig 5) ;;
          if negb (bool_decide (m_digest = digest)) then ret [""%string; ""%string]
          else decrypt_aes_result key key_str payload master_pub
      end
    else decrypt_aes_result key key_str payload master_pub
  else ret [""%string; ""%string].

(** wraps the verify_signature method so we have additional checks and
    return a bool *)
Definition verify_pubkey_sig (self : t) (message sig : pyval) : M bool :=
  name <- getitem (opts self) "master_sign_key_name" ;;
  if truthy name then
    pki <- pki_dir self ;;
    name' <- getitem (opts self) "master_sign_key_name" ;;
    name' <- as_str name' ;;
    let path := path_join pki (name' +:+ ".pub") in
    sig <- as_str sig ;;
    raw <- a2b_base64 sig ;;
    res <- verify_signature path message raw ;;
    ret (negb (res =? 0))
  else ret false.

(** [aes, token = value] *)
Definition unpack2 (l : list string) : M (string * string) :=
  match l with
  | [a; b] => ret (a, b)
  | _ => raise ValueError
  end.

(** The statements the three accepting paths repeat:
    [fopen(m_pub_fn, 'w+').write(payload['pub_key'])], then
    [aes, token = self.decrypt_aes(payload, False)] and [return aes]. *)
Definition pin_and_decrypt (self : t) (m_pub_fn : string) (payload : pydict) : M pyval :=
  open_truncate m_pub_fn ;;;
  pk <- getitem payload "pub_key" ;;
  pk <- as_str pk ;;
  write_to m_pub_fn pk ;;;
  r <- decrypt_aes self payload false ;;
  at_ <- unpack2 r ;;
  ret (VStr (fst at_)).

(** [self.verify_pubkey_sig(payload['pub_key'], payload['pub_sig'])] *)
Definition verify_payload_sig (self : t) (payload : pydict) : M bool :=
  pk <- getitem payload "pub_key" ;;
  ps <- getitem payload "pub_sig" ;;
  verify_pubkey_sig self pk ps.

(** The first [if] of the pinned branch (a received key that differs
    from the pinned one).  [Some v] is [return v]; [None] means control
    goes on to the statements after the [if]. *)
Definition verify_changed_key (self : t) (payload : pydict) : M (option pyval) :=
  vs <- getitem (opts self) "verify_master_pubkey_sign" ;;
  if truthy vs then
    try_except
      (ok <- verify_payload_sig self payload ;;
       if ok : bool then
         pki <- pki_dir self ;;
         v <- pin_and_decrypt self (path_join pki (mpub self)) payload ;;
         ret (Some v)
       else ret (Some (VStr "")))
      is_KeyError
      (fun _ => ret None)
  else if contains payload "pub_sig" then ret (Some (VStr ""))
  else ret (Some (VStr "")).

(** The second [if] of the pinned branch.  Leaving it without a
    [return] ends the function, which then returns [None]. *)
Definition verify_pinned_key (self : t) (payload : pydict) : M pyval :=
  if contains payload "pub_sig" then
    vs <- getitem (opts self) "verify_master_pubkey_sign" ;;
    if negb (truthy vs) then ret (VStr "")
    else
      always <- getitem (opts self) "always_verify_signature" ;;
      (if truthy always then verify_payload_sig self payload ;;; ret tt else ret tt) ;;;
      checked <- try_except
                   (r <- decrypt_aes self payload true ;;
                    at_ <- unpack2 r ;;
                    if negb (bool_decide (snd at_ = token self)) then ret None
                    else ret (Some (fst at_)))
                   any_exception
                   (fun _ => ret None) ;;
      match checked with
      | None => ret (VStr "")
      | Some aes => ret (VStr aes)
      end
  else
    vs <- getitem (opts self) "verify_master_pubkey_sign" ;;
    if truthy vs then ret (VStr "")
    else ret VNone.

(** Verify that the master is the same one that was previously accepted. *)
Definition verify_master (self : t) (payload : pydict) : M pyval :=
  pki <- pki_dir self ;;
  let m_pub_fn := path_join pki (mpub self) in
  isfile <- path_exists m_pub_fn ;;
  pinned <- (if isfile : bool then
               om <- getitem (opts self) "open_mode" ;; ret (negb (truthy om))
             else ret false) ;;
  if pinned : bool then
    local_master_pub <- read_file m_pub_fn ;;
    pk <- getitem payload "pub_key" ;;
    returned <- (if negb (eq_str pk local_master_pub)
                 then verify_changed_key self payload
                 else ret None) ;;
    match returned with
    | Some v => ret v
    | None => verify_pinned_key self payload
    end
  else
    vs <- getitem (opts self) "verify_master_pubkey_sign" ;;
    if truthy vs then
      ok <- verify_payload_sig self payload ;;
      if ok : bool then
        pki' <- pki_dir self ;;
        pin_and_decrypt self (path_join pki' (mpub self)) payload
      else ret VNone
    else pin_and_decrypt self m_pub_fn payload.

(** [sreq.send_auto(load, tries, timeout)]: the request goes out, the
    next scripted reply comes back; no reply left is a time out. *)
Definition send_auto (load : pydict) : M pydict :=
  fun w =>
    let w' := World (w_fs w) (w_tape w) (w_pos w) (w_seed w) (tail (w_net w))
                    (w_sent w ++ [load]) (w_slept w) (w_aes w) in
    match w_net w with
    | Some reply :: _ => (Ret reply, w')
    | _ => (Raise SaltReqTimeoutError, w')
    end.

Definition _finger_fail (finger : pyval) (master_key : string) : M pyval :=
  pem_finger master_key ;;;
  sys_exit 42.

(** [payload['load']] looked into for a [ret] entry: [Some v] is the
    value of [payload['load']['ret']], [None] means there is none. *)
Definition load_ret (payload : pydict) : M (option pyval) :=
  match payload !! "load"%string with
  | None => ret None
  | Some (VDict load) => ret (load !! "ret"%string)
  | Some (VStr s) => if str_contains "ret" s then raise TypeError else ret None
  | Some _ => raise TypeError
  end.

(** Send a sign in request to the master: returns ['retry'], ['full'] or
    the dict with the decrypted aes key and the publish port. *)
Definition sign_in (self : t) (timeout : pyval) (safe : pyval) (tries : pyval) : M pyval :=
  pki <- pki_dir self ;;
  let m_pub_fn := path_join pki (mpub self) in
  getitem (opts self) "master_uri" ;;;
  sent <- try_except
            (load <- minion_sign_in_payload self ;;
             reply <- send_auto load ;;
             ret (Some reply))
            is_SaltReqTimeoutError
            (fun _ => if truthy safe then ret None else raise SaltClientError) ;;
  match sent with
  | None => ret (VStr "retry")
  | Some payload =>
      r <- load_ret payload ;;
      match r with
      | Some v =>
          if negb (truthy v) then
            rr <- getitem (opts self) "rejected_retry" ;;
            if truthy rr then ret (VStr "retry") else sys_exit 0
          else if eq_str v "full" then ret (VStr "full")
          else ret (VStr "retry")
      | None =>
          aes <- verify_master self payload ;;
          if negb (truthy aes) then sys_exit 42
          else
            (if truthy (dict_get (opts self) "syndic_master" (VBool false)) then
               let syndic_finger :=
                 dict_get (opts self) "syndic_finger"
                          (dict_get (opts self) "master_finger" (VBool false)) in
               if truthy syndic_finger then
                 f <- pem_finger m_pub_fn ;;
                 if negb (eq_str syndic_finger f) then _finger_fail syndic_finger m_pub_fn
                 else ret VNone
               else ret VNone
             else
               if truthy (dict_get (opts self) "master_finger" (VBool false)) then
                 f <- pem_finger m_pub_fn ;;
                 mf <- getitem (opts self) "master_finger" ;;
                 if negb (eq_str mf f) then _finger_fail mf m_pub_fn
                 else ret VNone
               else ret VNone) ;;;
            port <- getitem payload "publish_port" ;;
            ret (VDict (<["publish_port" := port]> (<["aes" := aes]> (∅ : pydict))))
      end
  end.

End Auth.
End Auth.

(* ================================================================== *)
(** * SAuth: the standalone authentication session *)
(* ================================================================== *)

Module SAuth.
Section SAuth.
Context {RP : RsaPrims} {CP : CipherPrims}.

(** One step of the wait time: [if t < t_max: t += t]. *)
Definition next_wait (acceptance_wait_time acceptance_wait_time_max : Z) : Z :=
  if acceptance_wait_time <? acceptance_wait_time_max
  then acceptance_wait_time + acceptance_wait_time
  else acceptance_wait_time.

(** [Crypticle(self.opts, creds['aes'])] *)
Definition make_crypticle (creds : pyval) : M Crypticle.t :=
  match creds with
  | VDict d =>
      aes <- getitem d "aes" ;;
      aes <- as_str aes ;;
      Crypticle.__init__ (list_ascii_of_string aes) 192
  | _ => raise TypeError
  end.

(** The [while True] loop, for at most [fuel] sign-in attempts.  The
    message printed in caller mode before [sys.exit(2)] is not modelled. *)
Fixpoint authenticate_loop (fuel : nat) (self : Auth.t)
    (acceptance_wait_time acceptance_wait_time_max : Z) : M Crypticle.t :=
  match fuel with
  | O => fun w => (OutOfFuel, w)
  | S fuel' =>
      creds <- Auth.sign_in self
                 (dict_get (Auth.opts self) "auth_timeout" (VInt 60))
                 (dict_get (Auth.opts self) "auth_safemode"
                    (dict_get (Auth.opts self) "_safe_auth" (VBool true)))
                 (dict_get (Auth.opts self) "auth_tries" (VInt 1)) ;;
      if eq_str creds "retry" then
        if truthy (dict_get (Auth.opts self) "caller" VNone) then sys_exit 2
        else
          (if negb (acceptance_wait_time =? 0) then sleep acceptance_wait_time else ret tt) ;;;
          authenticate_loop fuel' self
            (next_wait acceptance_wait_time acceptance_wait_time_max)
            acceptance_wait_time_max
      else make_crypticle creds
  end.

(** Authenticate with the master.  The two wait times are integers
    (a bool counts as 0 or 1), as the configuration has them; the code
    would compare, add and sleep any number, and where the options hold
    something else the model stops with [TypeError]: that is the edge of
    the model, not what the code does there. *)
Definition __authenticate (fuel : nat) (self : Auth.t) : M Crypticle.t :=
  acceptance_wait_time <- getitem (Auth.opts self) "acceptance_wait_time" ;;
  acceptance_wait_time <- as_int acceptance_wait_time ;;
  acceptance_wait_time_max <- getitem (Auth.opts self) "acceptance_wait_time_max" ;;
  acceptance_wait_time_max <- as_int acceptance_wait_time_max ;;
  let acceptance_wait_time_max :=
    if acceptance_wait_time_max =? 0 then acceptance_wait_time
    else acceptance_wait_time_max in
  authenticate_loop fuel self acceptance_wait_time acceptance_wait_time_max.

(** [SAuth(opts)]: the [Auth] part, then the session. *)
Definition __init__ (fuel : nat) (opts : pydict) : M (Auth.t * Crypticle.t) :=
  self <- Auth.__init__ opts ;;
  crypticle <- __authenticate fuel self ;;
  ret (self, crypticle).

End SAuth.
End SAuth.

(* ================================================================== *)
(** * Further methods of Crypticle and MasterKeys *)
(* ================================================================== *)

(** [salt.payload.Serial], the codec of inner payloads, is an external
    collaborator: objects it can serialize, its [dumps] and [loads]
    ([None]: the exception the codec raises on bytes it cannot read),
    and the empty dict [{}]. *)
Class SerialPrims := {
  pyobj : Type;
  serial_dumps : pyobj -> bytes;
  serial_loads : bytes -> option pyobj;
  empty_dict : pyobj
}.

(** [s.startswith(p)] on byte strings *)
Fixpoint bytes_startswith (p s : bytes) : bool :=
  match p, s with
  | [], _ => true
  | a :: p', b :: s' => bool_decide (a = b) && bytes_startswith p' s'
  | _ :: _, [] => false
  end.

Module CrypticleSerial.
Section CrypticleSerial.
Context {CP : CipherPrims} {SP : SerialPrims}.

Definition PICKLE_PAD : bytes := list_ascii_of_string "pickle::".

(** Serialize and encrypt a python object *)
Definition dumps (self : Crypticle.t) (obj : pyobj) : M bytes :=
  Crypticle.encrypt self (PICKLE_PAD ++ serial_dumps obj).

(** Decrypt and un-serialize a python object *)
Definition loads (self : Crypticle.t) (data : bytes) : M pyobj :=
  data <- Crypticle.decrypt self data ;;
  if negb (bytes_startswith PICKLE_PAD data) then ret empty_dict
  else from_option ValueError (serial_loads (drop (length PICKLE_PAD) data)).

End CrypticleSerial.
End CrypticleSerial.

Module MasterKeysMethods.
Section MasterKeysMethods.
Context {RP : RsaPrims}.

(** Return the string representation of a public key in the
    pki-directory *)
Definition get_pub_str (self : MasterKeys.t) (name : string) : M string :=
  pki <- getitem (MasterKeys.opts self) "pki_dir" ;;
  pki <- as_str pki ;;
  let path := path_join pki (name +:+ ".pub") in
  isfile <- path_exists path ;;
  (if isfile : bool then ret tt
   else
     key <- MasterKeys.__get_keys (MasterKeys.opts self) (MasterKeys.rsa_path self) "master" ;;
     write_to path (rsa_pub_pem key)) ;;;
  read_file path.

Definition get_mkey_paths (self : MasterKeys.t) : string * string :=
  (MasterKeys.pub_path self, MasterKeys.rsa_path self).

(** returns the base64 encoded signature from the signature file or
    None if the master has its own signing keys *)
Definition pubkey_signature (self : MasterKeys.t) : option string :=
  MasterKeys.pub_signature self.

End MasterKeysMethods.
End MasterKeysMethods.

(* ================================================================== *)
(** * Test fixtures *)
(* ================================================================== *)

(** Small executable stand-ins for the cryptographic libraries, and a
    concrete minion, used to run the code on explicit inputs.  They make
    no cryptographic sense: RSA operations are the identity on text, the
    cipher reverses the data, the MAC is a 32-byte cut of key and data. *)
Module Fixture.

Definition toy_rsa : RsaPrims := {|
  privkey := string;
  pubkey := string;
  rsa_parse_key := fun s => if bool_decide (s = ""%string) then None else Some s;
  rsa_parse_pub_key := fun s => if bool_decide (s = ""%string) then None else Some s;
  rsa_key_pem := fun k => k;
  rsa_pub_pem := fun k => (k +:+ ".public")%string;
  rsa_gen_key := fun bits seed => String (ascii_of_nat (65 + seed)) "-generated";
  rsa_private_encrypt := fun k m pad => Some m;
  rsa_private_decrypt := fun k c pad => Some c;
  rsa_public_encrypt := fun k m pad seed => Some m;
  rsa_public_decrypt := fun k c pad => Some c;
  evp_verify_final := fun k m sg => if bool_decide (m = sg) then 1 else 0;
  sha256_hexdigest := fun s => s;
  path_traversal_ok := fun fs path user => true;
  pem_finger_of := fun fs path => default ""%string (fs !! path)
|}.

Definition aes_key_length_ok (key : bytes) : bool :=
  bool_decide (length key = 16%nat) || bool_decide (length key = 24%nat)
  || bool_decide (length key = 32%nat).

Definition toy_cbc (key iv data : bytes) : option bytes :=
  if aes_key_length_ok key && bool_decide (length iv = 16%nat)
     && bool_decide (length data mod 16 = 0)%nat
  then Some (rev data) else None.

Definition toy_cipher : CipherPrims := {|
  hmac_sha256 := fun key data => take 32 (key ++ data ++ replicate 32 "000"%char);
  aes_cbc_encrypt := toy_cbc;
  aes_cbc_decrypt := toy_cbc
|}.

Definition pki : string := "/etc/salt/pki/minion".

Definition minion_opts : pydict :=
  <["pki_dir" := VStr pki]>
  (<["id" := VStr "minion-1"]>
  (<["master_uri" := VStr "tcp://10.0.0.1:4506"]>
  (<["open_mode" := VBool false]>
  (<["verify_master_pubkey_sign" := VBool false]>
  (<["always_verify_signature" := VBool false]>
  (<["master_sign_key_name" := VStr "master_sign"]>
  (<["rejected_retry" := VBool true]>
  (<["acceptance_wait_time" := VInt 10]>
  (<["acceptance_wait_time_max" := VInt 15]>
  (<["keysize" := VInt 2048]> ∅)))))))))).

(** The minion, with the token a fixed text. *)
Definition minion : Auth.t :=
  Auth.Build minion_opts "TOKEN"
    (path_join pki "minion.pub") (path_join pki "minion.pem") "minion_master.pub".

Definition files_first_contact : gmap string string :=
  <[path_join pki "minion.pem" := "MINION-KEY"%string]>
  (<[path_join pki "minion.pub" := "MINION-KEY.public"%string]> ∅).

Definition files_pinned : gmap string string :=
  <[path_join pki "minion_master.pub" := "MASTER-KEY.public"%string]> files_first_contact.

Definition world_of (fs : gmap string string) (net : list (option pydict)) : world :=
  World fs (fun n => ascii_of_nat n) 0 0 net [] [] [].

(** A reply with the session key and nothing else. *)
Definition reply_plain (pub_key : string) : pydict :=
  <["pub_key" := VStr pub_key]>
  (<["aes" := VStr "SESSION-KEY"]>
  (<["publish_port" := VInt 4505]> ∅)).

(** The reply of a master that is at capacity. *)
Definition reply_full : pydict :=
  <["load" := VDict (<["ret" := VStr "full"]> ∅)]> ∅.

(** The reply of a master that has not accepted the key yet. *)
Definition reply_pending : pydict :=
  <["load" := VDict (<["ret" := VBool true]> ∅)]> ∅.

(** A master that signs its replies with a key pair of its own. *)
Definition master_pki : string := "/etc/salt/pki/master".


(** A session key: the bytes 0..55, their key string and the envelope
    made from it. *)
Definition key_bytes : bytes := map ascii_of_nat (seq 0 56).

Definition key_string : bytes := Base64.b2a_groups key_bytes.

Definition envelope : Crypticle.t :=
  Crypticle.Build (take 24 key_bytes, drop 24 key_bytes) 192.

End Fixture.

(** Further stand-ins: a codec whose objects are byte strings and whose
    serialization is the identity. *)
Module Fixture2.

Definition toy_serial : SerialPrims := {|
  pyobj := bytes;
  serial_dumps := fun o => o;
  serial_loads := fun b => Some b;
  empty_dict := []
|}.


(** A master that hands out a signature made beforehand. *)
Definition master_opts_signed : pydict :=
  <["pki_dir" := VStr Fixture.master_pki]>
  (<["keysize" := VInt 2048]>
  (<["master_sign_pubkey" := VBool true]>
  (<["master_use_pubkey_signature" := VBool true]>
  (<["master_pubkey_signature" := VStr "master_pubkey_signature"]> ∅)))).

Definition files_master_signed : gmap string string :=
  <[path_join Fixture.master_pki "master.pem" := "MASTER-KEY"%string]>
  (<[path_join Fixture.master_pki "master_pubkey_signature" := "SIGNATURE"%string]> ∅).

Definition master_object : MasterKeys.t (RP := Fixture.toy_rsa) :=
  MasterKeys.Build (RP := Fixture.toy_rsa) master_opts_signed
    (path_join Fixture.master_pki "master.pub") (path_join Fixture.master_pki "master.pem")
    "MASTER-KEY"%string "salty bacon" (Some "SIGNATURE"%string)
    (Some (path_join Fixture.master_pki "master_pubkey_signature")) None None None.

(** The minion of the fixture with one more option set. *)
Definition minion_with (k : string) (v : pyval) : Auth.t :=
  Auth.Build (<[k := v]> Fixture.minion_opts) "TOKEN"
    (path_join Fixture.pki "minion.pub") (path_join Fixture.pki "minion.pem")
    "minion_master.pub".

Definition minion_verifying : Auth.t :=
  minion_with "verify_master_pubkey_sign" (VBool true).

Definition minion_unnamed : Auth.t :=
  Auth.Build (<["master_sign_key_name" := VStr ""]>
              (<["verify_master_pubkey_sign" := VBool true]> Fixture.minion_opts)) "TOKEN"
    (path_join Fixture.pki "minion.pub") (path_join Fixture.pki "minion.pem")
    "minion_master.pub".

Definition minion_fingerprinted : Auth.t := minion_with "master_finger" (VStr "ab:cd:ef").

Definition minion_caller : Auth.t := minion_with "caller" (VBool true).

Definition minion_steady : Auth.t := minion_with "acceptance_wait_time_max" (VInt 0).

(** The reply of a master that has rejected the minion's key. *)
Definition reply_rejected : pydict :=
  <["load" := VDict (<["ret" := VBool false]> ∅)]> ∅.

(** A reply whose [sig] the toy key turns into the session key. *)
Definition reply_signed : pydict :=
  <["sig" := VStr "SESSION-KEY"]> (Fixture.reply_plain "MASTER-KEY.public").

(** The sign-in payload of a minion that has no master key yet. *)
Definition first_request : pydict :=
  <["load" := VDict (<["pub" := VStr "MINION-KEY.public"]>
                     (<["id" := VStr "minion-1"]> (<["cmd" := VStr "_auth"]> ∅)))]>
  (<["enc" := VStr "clear"]> ∅).

(** The sign-in payload of a minion that has pinned a master key. *)
Definition pinned_request : pydict :=
  <["load" := VDict (<["pub" := VStr "MINION-KEY.public"]>
                     (<["token" := VStr "TOKEN"]>
                     (<["id" := VStr "minion-1"]> (<["cmd" := VStr "_auth"]> ∅))))]>
  (<["enc" := VStr "clear"]> ∅).




End Fixture2.

(* ================================================================== *)
(** * Vocabulary of the properties *)
(* ================================================================== *)

(** A computation that leaves a component [f] of the world as it found
    it, however it ends. *)
Definition keeps {X A} (f : world -> X) (m : M A) : Prop :=
  forall w, f (snd (m w)) = f w.

(** In particular the record of [time.sleep] calls. *)
Abbreviation keeps_slept := (keeps w_slept).


(** The bound the guard [if t < t_max] keeps: a doubled value is below
    twice the maximum. *)
Definition wait_bound (wait wait_max : Z) : Z := Z.max wait (2 * wait_max - 1).

(** The world once [send_auto] has sent [request] and taken the next
    entry, if any, from the replies. *)
Definition after_send (w : world) (request : pydict) : world :=
  World (w_fs w) (w_tape w) (w_pos w) (w_seed w) (tail (w_net w))
        (w_sent w ++ [request]) (w_slept w) (w_aes w).

(** What the envelope needs from its primitives: an HMAC-SHA256 digest
    has [SIG_SIZE] bytes, and CBC decryption undoes CBC encryption of
    whole blocks under an AES key (16, 24 or 32 bytes) and a one-block
    IV. *)
Class CipherLaws (CP : CipherPrims) : Prop := {
  hmac_digest_size : forall key data,
    length (hmac_sha256 key data) = Crypticle.SIG_SIZE;
  aes_cbc_inverse : forall key iv data,
    (length key = 16 \/ length key = 24 \/ length key = 32)%nat ->
    length iv = Crypticle.AES_BLOCK_SIZE ->
    (length data mod Crypticle.AES_BLOCK_SIZE = 0)%nat ->
    exists ct, aes_cbc_encrypt key iv data = Some ct
               /\ aes_cbc_decrypt key iv ct = Some data
}.

(** PKCS#7 padding as [encrypt] adds it. *)
Definition padded (m : bytes) : bytes :=
  let pad := (Crypticle.AES_BLOCK_SIZE - length m mod Crypticle.AES_BLOCK_SIZE)%nat in
  m ++ replicate pad (ascii_of_nat pad).

Module Base64Digits.
Import Base64.
#[local] Open Scope N_scope.

(** A character the decoder takes as the 6-bit value [v]. *)
Definition digit_of (c : ascii) (v : N) : Prop :=
  (127 <? N_of_ascii c) = false
  /\ c <> "013"%char /\ c <> NL /\ c <> " "%char /\ c <> PAD
  /\ a2b_index c = Some v.

(** The same for the digit [b2a_char i], as a test that can be run. *)
Definition digit_ok (i : N) : bool :=
  let c := b2a_char i in
  negb (127 <? N_of_ascii c)
  && negb (bool_decide (c = "013"%char)) && negb (bool_decide (c = NL))
  && negb (bool_decide (c = " "%char)) && negb (bool_decide (c = PAD))
  && bool_decide (a2b_index c = Some i).

End Base64Digits.

Section Vocabulary.
Context {RP : RsaPrims} {CP : CipherPrims}.

(** The minion key is on disk and loads. *)
Definition key_on_disk (self : Auth.t) (w : world) (pki : string) (key : privkey) : Prop :=
  Auth.opts self !! "pki_dir"%string = Some (VStr pki)
  /\ path_traversal_ok (w_fs w) pki (dict_get (Auth.opts self) "user" (VStr "root")) = true
  /\ exists pem, w_fs w !! Auth.rsa_path self = Some pem /\ rsa_parse_key pem = Some key.

(** What the pinned master key, when there is one, must make of the
    signature for [decrypt_aes] to go on. *)
Definition sig_accepted (self : Auth.t) (w : world) (pki key_str sg : string) : Prop :=
  match w_fs w !! path_join pki (Auth.mpub self) with
  | None => True
  | Some txt =>
      exists mkey, rsa_parse_pub_key txt = Some mkey
                   /\ rsa_public_decrypt mkey sg 5 = Some (sha256_hexdigest key_str)
  end.

(** The call of [sign_in] the loop makes. *)
Definition driver_sign_in (self : Auth.t) : M pyval :=
  Auth.sign_in self
    (dict_get (Auth.opts self) "auth_timeout" (VInt 60))
    (dict_get (Auth.opts self) "auth_safemode"
       (dict_get (Auth.opts self) "_safe_auth" (VBool true)))
    (dict_get (Auth.opts self) "auth_tries" (VInt 1)).


End Vocabulary.

(* ================================================================== *)
(** * Properties *)
(* ================================================================== *)

(** ** Running the effect monad *)

(** Unfold the monad and the environment primitives, so that a run is
    decided by the facts known about the dictionaries and the files. *)
Ltac py_unfold :=
  unfold bind, try_except, getitem, from_option, contains, dict_get, as_str,
    path_exists, read_file, open_truncate, write_to, any_exception,
    ret, raise, sys_exit in *.

Ltac py_step :=
  match goal with
  | H : ?x = _ |- context [?x] => rewrite !H
  end.

Ltac py_run := py_unfold; repeat (cbn -[path_join]; try py_step); cbn -[path_join].

Section AuthFacts.
Context {RP : RsaPrims} {CP : CipherPrims}.

(** C5.  MITM attempt: a pinned master key file exists, [open_mode] is
    off, the reply carries a different [pub_key] and no [pub_sig], and
    [verify_master_pubkey_sign] is off.  Then [verify_master] returns the
    empty string and the world, hence the pinned file, is unchanged. *)
Theorem verify_master_rejects_changed_key
    (self : Auth.t) (payload : pydict) (w : world)
    (pki pinned : string) (om vs pk : pyval) :
  Auth.opts self !! "pki_dir"%string = Some (VStr pki) ->
  w_fs w !! path_join pki (Auth.mpub self) = Some pinned ->
  Auth.opts self !! "open_mode"%string = Some om -> truthy om = false ->
  Auth.opts self !! "verify_master_pubkey_sign"%string = Some vs -> truthy vs = false ->
  payload !! "pub_key"%string = Some pk -> eq_str pk pinned = false ->
  payload !! "pub_sig"%string = None ->
  Auth.verify_master self payload w = (Ret (VStr ""), w)
  /\ w_fs (snd (Auth.verify_master self payload w)) !! path_join pki (Auth.mpub self)
     = Some pinned.
Proof.
  intros Hpki Hfile Hom Homf Hvs Hvsf Hpk Hne Hsig.
  assert (E : Auth.verify_master self payload w = (Ret (VStr ""), w)).
  { unfold Auth.verify_master, Auth.verify_changed_key, Auth.pki_dir. py_run. reflexivity. }
  rewrite E. split; [reflexivity | exact Hfile].
Qed.

(** C3 (the code departs from the claim).  A reply whose [pub_key] equals
    the pinned key and that carries no [pub_sig], with
    [verify_master_pubkey_sign] off, reaches the end of [verify_master]
    without a [return]: the result is [None], neither the session key nor
    the empty string, and nothing was decrypted. *)
Theorem verify_master_known_key_returns_None
    (self : Auth.t) (payload : pydict) (w : world)
    (pki pinned : string) (om vs : pyval) :
  Auth.opts self !! "pki_dir"%string = Some (VStr pki) ->
  w_fs w !! path_join pki (Auth.mpub self) = Some pinned ->
  Auth.opts self !! "open_mode"%string = Some om -> truthy om = false ->
  Auth.opts self !! "verify_master_pubkey_sign"%string = Some vs -> truthy vs = false ->
  payload !! "pub_key"%string = Some (VStr pinned) ->
  payload !! "pub_sig"%string = None ->
  Auth.verify_master self payload w = (Ret VNone, w).
Proof.
  intros Hpki Hfile Hom Homf Hvs Hvsf Hpk Hsig.
  unfold Auth.verify_master, Auth.verify_pinned_key, Auth.pki_dir. py_run.
  rewrite bool_decide_eq_true_2 by reflexivity. py_run. reflexivity.
Qed.

Lemma get_keys_on_disk self w pki key :
  key_on_disk self w pki key -> Auth.get_keys self w = (Ret key, w).
Proof.
  intros (Hpki & Hok & pem & Hpem & Hparse).
  unfold Auth.get_keys, Auth.pki_dir, check_path_traversal, RSA_load_key.
  unfold dict_get in Hok. py_run. reflexivity.
Qed.

(** C2 (amended).  With the minion key on disk and an [aes] field that
    decrypts to [key_str]: a reply without [sig] yields the pair of empty
    strings, whatever [master_pub] is; a reply with a [sig] that the
    pinned key (if any) accepts, no separator in [key_str], no [token] and
    [master_pub = False] yields [key_str] and the empty token. *)
Theorem decrypt_aes_first_contact
    (self : Auth.t) (payload : pydict) (w : world)
    (pki aes key_str : string) (key : privkey) :
  key_on_disk self w pki key ->
  payload !! "aes"%string = Some (VStr aes) ->
  rsa_private_decrypt key aes pkcs1_oaep_padding = Some key_str ->
  (forall master_pub, payload !! "sig"%string = None ->
     Auth.decrypt_aes self payload master_pub w = (Ret [""%string; ""%string], w))
  /\ (forall sg, payload !! "sig"%string = Some (VStr sg) ->
       sig_accepted self w pki key_str sg ->
       str_contains "_|-" key_str = false ->
       payload !! "token"%string = None ->
       Auth.decrypt_aes self payload false w = (Ret [key_str; ""%string], w)).
Proof.
  intros Hkey Haes Hdec.
  pose proof (get_keys_on_disk _ _ _ _ Hkey) as Hget.
  destruct Hkey as (Hpki & _).
  split.
  - intros master_pub Hsig. unfold Auth.decrypt_aes.
    unfold bind at 1. rewrite Hget. py_run. reflexivity.
  - intros sg Hsig Hacc Hsep Htok. unfold Auth.decrypt_aes.
    unfold bind at 1. rewrite Hget.
    unfold sig_accepted in Hacc. unfold Auth.decrypt_aes_result, Auth.pki_dir, RSA_load_pub_key.
    destruct (w_fs w !! path_join pki (Auth.mpub self)) as [txt|] eqn:Hfile.
    + destruct Hacc as (mkey & Hparse & Hrec). py_run.
      rewrite bool_decide_eq_true_2 by reflexivity. py_run. reflexivity.
    + py_run. reflexivity.
Qed.

End AuthFacts.

(** C5 at the fixture: the pinned key is [MASTER-KEY.public], the reply
    brings [OTHER-KEY.public]. *)
Lemma verify_master_rejects_changed_key_witness :
  let w := Fixture.world_of Fixture.files_pinned [] in
  let payload := Fixture.reply_plain "OTHER-KEY.public" in
  Auth.verify_master (RP := Fixture.toy_rsa) Fixture.minion payload w = (Ret (VStr ""), w)
  /\ w_fs (snd (Auth.verify_master (RP := Fixture.toy_rsa) Fixture.minion payload w))
       !! path_join Fixture.pki "minion_master.pub" = Some "MASTER-KEY.public"%string.
Proof.
  cbv zeta.
  apply (verify_master_rejects_changed_key (RP := Fixture.toy_rsa) Fixture.minion
           (Fixture.reply_plain "OTHER-KEY.public")
           (Fixture.world_of Fixture.files_pinned [])
           Fixture.pki "MASTER-KEY.public" (VBool false) (VBool false)
           (VStr "OTHER-KEY.public"));
    vm_compute; reflexivity.
Defined.

(** C3 at the fixture: the reply brings the pinned key itself. *)
Lemma verify_master_known_key_returns_None_witness :
  let w := Fixture.world_of Fixture.files_pinned [] in
  Auth.verify_master (RP := Fixture.toy_rsa) Fixture.minion
    (Fixture.reply_plain "MASTER-KEY.public") w = (Ret VNone, w).
Proof.
  cbv zeta.
  apply (verify_master_known_key_returns_None (RP := Fixture.toy_rsa) Fixture.minion
           (Fixture.reply_plain "MASTER-KEY.public")
           (Fixture.world_of Fixture.files_pinned [])
           Fixture.pki "MASTER-KEY.public" (VBool false) (VBool false));
    vm_compute; reflexivity.
Defined.

(** C2 as stated fails: on first contact (no pinned key), a reply whose
    [aes] decrypts to [SESSION-KEY] and that has neither [sig] nor
    [token] makes [decrypt_aes(payload, False)] return the two empty
    strings, not the session key. *)
Lemma decrypt_aes_without_sig_counterexample :
  let w := Fixture.world_of Fixture.files_first_contact [] in
  let payload := Fixture.reply_plain "MASTER-KEY.public" in
  payload !! "sig"%string = None
  /\ payload !! "token"%string = None
  /\ Auth.get_keys (RP := Fixture.toy_rsa) Fixture.minion w = (Ret "MINION-KEY"%string, w)
  /\ rsa_private_decrypt (RsaPrims := Fixture.toy_rsa) "MINION-KEY"%string "SESSION-KEY"
       pkcs1_oaep_padding = Some "SESSION-KEY"%string
  /\ Auth.decrypt_aes (RP := Fixture.toy_rsa) Fixture.minion payload false w
     = (Ret [""%string; ""%string], w)
  /\ Auth.decrypt_aes (RP := Fixture.toy_rsa) Fixture.minion payload false w
     <> (Ret ["SESSION-KEY"%string; ""%string], w).
Proof.
  cbv zeta. repeat split; try (vm_compute; reflexivity).
  vm_compute. discriminate.
Qed.

(** C2 (amended) at the fixture: the same reply with a [sig] field. *)
Lemma decrypt_aes_first_contact_witness :
  let w := Fixture.world_of Fixture.files_first_contact [] in
  let payload := <["sig" := VStr "anything"]> (Fixture.reply_plain "MASTER-KEY.public") in
  Auth.decrypt_aes (RP := Fixture.toy_rsa) Fixture.minion payload false w
  = (Ret ["SESSION-KEY"%string; ""%string], w).
Proof.
  cbv zeta.
  refine (proj2 (decrypt_aes_first_contact (RP := Fixture.toy_rsa) Fixture.minion _
                   (Fixture.world_of Fixture.files_first_contact [])
                   Fixture.pki "SESSION-KEY" "SESSION-KEY" "MINION-KEY"%string _ _ _)
                "anything"%string _ _ _ _).
  - split; [vm_compute; reflexivity |].
    split; [vm_compute; reflexivity |].
    exists "MINION-KEY"%string. split; vm_compute; reflexivity.
  - vm_compute; reflexivity.
  - vm_compute; reflexivity.
  - vm_compute; reflexivity.
  - vm_compute. exact I.
  - vm_compute; reflexivity.
  - vm_compute; reflexivity.
Defined.

(** ** What never sleeps *)

Lemma keeps_bind {X A B} (f : world -> X) (m : M A) (k : A -> M B) :
  keeps f m -> (forall a, keeps f (k a)) -> keeps f (bind m k).
Proof.
  intros Hm Hk w. unfold bind. specialize (Hm w).
  destruct (m w) as [[a| | |] w1]; cbn in *; try assumption.
  rewrite Hk. assumption.
Qed.

Lemma keeps_try {X A} (f : world -> X) (m : M A) handled (h : exn -> M A) :
  keeps f m -> (forall e, keeps f (h e)) -> keeps f (try_except m handled h).
Proof.
  intros Hm Hh w. unfold try_except. specialize (Hm w).
  destruct (m w) as [[a|e| |] w1]; cbn in *; try assumption.
  destruct (handled e); cbn; [rewrite Hh|]; assumption.
Qed.

Lemma keeps_pure {X A} (f : world -> X) (m : M A) :
  (forall w, snd (m w) = w) -> keeps f m.
Proof. intros H w. now rewrite H. Qed.

Lemma keeps_field {X A} (f : world -> X) (m : M A) :
  (forall w, f (snd (m w)) = f w) -> keeps f m.
Proof. intros H. exact H. Qed.

Create HintDb keeps.

Ltac keeps_prim :=
  first
    [ apply keeps_pure; intros ?w;
      unfold getitem, from_option, as_str, as_int, path_exists, read_file,
        check_path_traversal, pem_finger, Auth.unpack2, Auth.load_ret, ret, raise, sys_exit;
      repeat case_match; reflexivity
    | apply keeps_field; intros ?w;
      unfold urandom, openssl_draw, log_aes, open_truncate, write_to, set_fs,
        Auth.send_auto;
      repeat case_match; reflexivity ].

Ltac keeps :=
  repeat first
    [ assumption
    | solve [eauto 2 with keeps]
    | apply keeps_bind; [| intros ?]
    | apply keeps_try; [| intros ?]
    | match goal with
      | |- keeps _ (if ?b then _ else _) => destruct b
      | |- keeps _ (match ?x with _ => _ end) => destruct x
      end
    | solve [keeps_prim] ].


Section Frames.
Context {RP : RsaPrims} {CP : CipherPrims}.

Lemma keeps_RSA_load_key p : keeps_slept (RSA_load_key p).
Proof. unfold RSA_load_key. keeps. Qed.

Lemma keeps_RSA_load_pub_key p : keeps_slept (RSA_load_pub_key p).
Proof. unfold RSA_load_pub_key. keeps. Qed.

Lemma keeps_gen_keys d n ks u : keeps_slept (gen_keys d n ks u).
Proof. unfold gen_keys. keeps. Qed.

Lemma keeps_a2b_base64 s : keeps_slept (a2b_base64 s).
Proof. unfold a2b_base64. keeps. Qed.

Lemma keeps_verify_signature p m sg : keeps_slept (verify_signature p m sg).
Proof. pose proof keeps_RSA_load_pub_key. unfold verify_signature. keeps. Qed.

Lemma keeps_pki_dir self : keeps_slept (Auth.pki_dir self).
Proof. unfold Auth.pki_dir. keeps. Qed.

Hint Resolve keeps_RSA_load_key keeps_RSA_load_pub_key keeps_gen_keys keeps_a2b_base64
  keeps_verify_signature keeps_pki_dir : keeps.

Lemma keeps_get_keys self : keeps_slept (Auth.get_keys self).
Proof. unfold Auth.get_keys. keeps. Qed.
Hint Resolve keeps_get_keys : keeps.

Lemma keeps_minion_sign_in_payload self : keeps_slept (Auth.minion_sign_in_payload self).
Proof. unfold Auth.minion_sign_in_payload. keeps. Qed.

Lemma keeps_decrypt_aes_result k ks p mp :
  keeps_slept (Auth.decrypt_aes_result k ks p mp).
Proof. unfold Auth.decrypt_aes_result. keeps. Qed.
Hint Resolve keeps_decrypt_aes_result : keeps.

Lemma keeps_decrypt_aes self p mp : keeps_slept (Auth.decrypt_aes self p mp).
Proof. unfold Auth.decrypt_aes. keeps. Qed.
Hint Resolve keeps_minion_sign_in_payload keeps_decrypt_aes : keeps.

Lemma keeps_verify_pubkey_sig self m sg : keeps_slept (Auth.verify_pubkey_sig self m sg).
Proof. unfold Auth.verify_pubkey_sig. keeps. Qed.
Hint Resolve keeps_verify_pubkey_sig : keeps.

Lemma keeps_pin_and_decrypt self f p : keeps_slept (Auth.pin_and_decrypt self f p).
Proof. unfold Auth.pin_and_decrypt. keeps. Qed.

Lemma keeps_verify_payload_sig self p : keeps_slept (Auth.verify_payload_sig self p).
Proof. unfold Auth.verify_payload_sig. keeps. Qed.
Hint Resolve keeps_pin_and_decrypt keeps_verify_payload_sig : keeps.

Lemma keeps_verify_master self p : keeps_slept (Auth.verify_master self p).
Proof.
  unfold Auth.verify_master, Auth.verify_changed_key, Auth.verify_pinned_key. keeps.
Qed.
Hint Resolve keeps_verify_master : keeps.

Lemma keeps_sign_in self t s tr : keeps_slept (Auth.sign_in self t s tr).
Proof. unfold Auth.sign_in, Auth._finger_fail. keeps. Qed.

Lemma keeps_make_crypticle creds : keeps_slept (SAuth.make_crypticle creds).
Proof.
  unfold SAuth.make_crypticle, Crypticle.__init__, Crypticle.extract_keys. keeps.
Qed.

End Frames.

(** ** The session driver *)

Section Driver.
Context {RP : RsaPrims} {CP : CipherPrims}.

(** A reply with [load.ret == 'full'] makes [sign_in] return ['full']:
    the request has been sent, the reply consumed, nothing else changed. *)
Lemma sign_in_full (self : Auth.t) (timeout safe tries : pyval) (w w1 : world)
    (pki : string) (uri : pyval) (request reply load : pydict) rest :
  Auth.opts self !! "pki_dir"%string = Some (VStr pki) ->
  Auth.opts self !! "master_uri"%string = Some uri ->
  Auth.minion_sign_in_payload self w = (Ret request, w1) ->
  w_net w1 = Some reply :: rest ->
  reply !! "load"%string = Some (VDict load) ->
  load !! "ret"%string = Some (VStr "full") ->
  Auth.sign_in self timeout safe tries w
  = (Ret (VStr "full"),
     World (w_fs w1) (w_tape w1) (w_pos w1) (w_seed w1) rest
           (w_sent w1 ++ [request]) (w_slept w1) (w_aes w1)).
Proof.
  intros Hpki Huri Hreq Hnet Hload Hret.
  unfold Auth.sign_in, Auth.pki_dir.
  unfold bind at 1. unfold bind at 1. unfold getitem at 1. rewrite Hpki. cbn.
  unfold bind at 1. unfold getitem at 1. rewrite Huri. cbn.
  unfold bind at 1. unfold try_except. unfold bind at 1. rewrite Hreq.
  unfold bind at 1. unfold Auth.send_auto. rewrite Hnet. cbn.
  unfold bind at 1. unfold Auth.load_ret. rewrite Hload, Hret. cbn. reflexivity.
Qed.

(** C8 (the code departs from the claim).  When [sign_in] reports
    ['full'], the loop of [__authenticate] does not sleep, does not call
    [sign_in] again: it leaves the loop and [creds['aes']] on the string
    raises [TypeError]. *)
Theorem authenticate_full_raises_TypeError
    (fuel : nat) (self : Auth.t) (wait wait_max : Z) (w w1 : world) :
  driver_sign_in self w = (Ret (VStr "full"), w1) ->
  SAuth.authenticate_loop (S fuel) self wait wait_max w = (Raise TypeError, w1).
Proof.
  intros Hfull. cbn [SAuth.authenticate_loop].
  unfold bind at 1. fold (driver_sign_in self). rewrite Hfull. reflexivity.
Qed.

(** One RETRY: the current wait time is slept (unless it is 0), then the
    loop goes on with [next_wait]. *)
Lemma authenticate_loop_retry
    (fuel : nat) (self : Auth.t) (wait wait_max : Z) (w w1 : world) :
  driver_sign_in self w = (Ret (VStr "retry"), w1) ->
  truthy (dict_get (Auth.opts self) "caller" VNone) = false ->
  SAuth.authenticate_loop (S fuel) self wait wait_max w
  = SAuth.authenticate_loop fuel self (SAuth.next_wait wait wait_max) wait_max
      (if wait =? 0 then w1 else snd (sleep wait w1)).
Proof.
  intros Hretry Hcaller. cbn [SAuth.authenticate_loop].
  unfold bind at 1. fold (driver_sign_in self). rewrite Hretry. cbn [eq_str].
  rewrite bool_decide_eq_true_2 by reflexivity. rewrite Hcaller.
  unfold bind at 1. destruct (wait =? 0); reflexivity.
Qed.

Lemma next_wait_bound wait wait_max :
  wait_bound (SAuth.next_wait wait wait_max) wait_max <= wait_bound wait wait_max.
Proof.
  unfold wait_bound, SAuth.next_wait.
  destruct (wait <? wait_max) eqn:E; [apply Z.ltb_lt in E | apply Z.ltb_ge in E]; lia.
Qed.

Lemma next_wait_stable wait wait_max :
  wait_max <= wait -> SAuth.next_wait wait wait_max = wait.
Proof.
  intros H. unfold SAuth.next_wait.
  destruct (wait <? wait_max) eqn:E; [apply Z.ltb_lt in E; lia | reflexivity].
Qed.

Lemma authenticate_loop_slept (fuel : nat) (self : Auth.t) :
  forall (wait wait_max : Z) (w : world),
  exists new,
    w_slept (snd (SAuth.authenticate_loop fuel self wait wait_max w)) = w_slept w ++ new
    /\ Forall (fun t => t <= wait_bound wait wait_max) new.
Proof.
  induction fuel as [|fuel IH]; intros wait wait_max w.
  - exists []. cbn. rewrite app_nil_r. split; [reflexivity | constructor].
  - cbn [SAuth.authenticate_loop]. unfold bind at 1. fold (driver_sign_in self).
    pose proof (keeps_sign_in self
                  (dict_get (Auth.opts self) "auth_timeout" (VInt 60))
                  (dict_get (Auth.opts self) "auth_safemode"
                     (dict_get (Auth.opts self) "_safe_auth" (VBool true)))
                  (dict_get (Auth.opts self) "auth_tries" (VInt 1)) w) as Hkeep.
    fold (driver_sign_in self) in Hkeep.
    destruct (driver_sign_in self w) as [[creds|e|c|] w1]; cbn [snd] in Hkeep;
      try (exists []; cbn; rewrite app_nil_r; split; [assumption | constructor]).
    destruct (eq_str creds "retry").
    + destruct (truthy (dict_get (Auth.opts self) "caller" VNone)).
      * exists []. cbn. rewrite app_nil_r. split; [assumption | constructor].
      * unfold bind at 1.
        destruct (wait =? 0) eqn:Ez; cbn [negb].
        -- cbn. destruct (IH (SAuth.next_wait wait wait_max) wait_max w1) as (new & Hnew & Hall).
           exists new. rewrite Hnew, Hkeep. split; [reflexivity |].
           eapply Forall_impl; [exact Hall |]. cbn. intros t Ht.
           pose proof (next_wait_bound wait wait_max). lia.
        -- cbn.
           destruct (IH (SAuth.next_wait wait wait_max) wait_max
                        (World (w_fs w1) (w_tape w1) (w_pos w1) (w_seed w1) (w_net w1)
                               (w_sent w1) (w_slept w1 ++ [wait]) (w_aes w1)))
             as (new & Hnew & Hall).
           exists (wait :: new). rewrite Hnew. cbn [w_slept]. rewrite Hkeep.
           rewrite <- app_assoc. split; [reflexivity |].
           constructor; [unfold wait_bound; lia |].
           eapply Forall_impl; [exact Hall |]. cbn. intros t Ht.
           pose proof (next_wait_bound wait wait_max). lia.
    + exists []. rewrite app_nil_r. split; [| constructor].
      rewrite keeps_make_crypticle. assumption.
Qed.

(** How far the wait can go: with integer wait times, what
    [__authenticate] sleeps stays within the larger of the configured
    [acceptance_wait_time] and [2 * max - 1], where [max] is
    [acceptance_wait_time_max], or [acceptance_wait_time] when that is
    0. *)
Lemma authenticate_wait_bound
    (fuel : nat) (self : Auth.t) (w : world) (wait wait_max : Z) :
  Auth.opts self !! "acceptance_wait_time"%string = Some (VInt wait) ->
  Auth.opts self !! "acceptance_wait_time_max"%string = Some (VInt wait_max) ->
  exists new,
    w_slept (snd (SAuth.__authenticate fuel self w)) = w_slept w ++ new
    /\ Forall (fun t => t <= wait_bound wait (if wait_max =? 0 then wait else wait_max)) new.
Proof.
  intros Hw Hm. unfold SAuth.__authenticate, getitem, bind, from_option.
  rewrite Hw, Hm. cbn.
  apply authenticate_loop_slept.
Qed.

(** C6 (the code departs from the claim).  The wait time is doubled
    whenever it is below [acceptance_wait_time_max], and the doubled
    value is not cut back to the maximum.  With integer wait times
    [0 < wait < max < 2 * wait], a minion whose first two sign-in
    attempts are to be retried sleeps [wait] and then [2 * wait], which
    is more than the maximum. *)
Theorem authenticate_wait_exceeds_max
    (fuel : nat) (self : Auth.t) (w w1 w2 : world) (wait wait_max : Z) :
  Auth.opts self !! "acceptance_wait_time"%string = Some (VInt wait) ->
  Auth.opts self !! "acceptance_wait_time_max"%string = Some (VInt wait_max) ->
  0 < wait < wait_max ->
  wait_max < 2 * wait ->
  truthy (dict_get (Auth.opts self) "caller" VNone) = false ->
  driver_sign_in self w = (Ret (VStr "retry"), w1) ->
  driver_sign_in self (snd (sleep wait w1)) = (Ret (VStr "retry"), w2) ->
  exists rest,
    w_slept (snd (SAuth.__authenticate (S (S fuel)) self w))
    = w_slept w ++ wait :: 2 * wait :: rest
    /\ ~ Forall (fun t => t <= wait_max) (wait :: 2 * wait :: rest).
Proof.
  intros Hw Hm Hlt Hover Hcaller Hretry1 Hretry2.
  unfold SAuth.__authenticate, getitem, bind, from_option. rewrite Hw, Hm.
  cbn [as_int ret].
  assert (Hmax : (wait_max =? 0) = false) by (apply Z.eqb_neq; lia).
  assert (Hwait : (wait =? 0) = false) by (apply Z.eqb_neq; lia).
  assert (Hnext : SAuth.next_wait wait wait_max = 2 * wait).
  { unfold SAuth.next_wait.
    destruct (wait <? wait_max) eqn:E; [lia | apply Z.ltb_ge in E; lia]. }
  assert (Hwait2 : (2 * wait =? 0) = false) by (apply Z.eqb_neq; lia).
  rewrite Hmax.
  rewrite (authenticate_loop_retry (S fuel) self wait wait_max w w1 Hretry1 Hcaller).
  rewrite Hwait, Hnext.
  rewrite (authenticate_loop_retry fuel self (2 * wait) wait_max _ w2 Hretry2 Hcaller).
  rewrite Hwait2.
  destruct (authenticate_loop_slept fuel self
              (SAuth.next_wait (2 * wait) wait_max) wait_max (snd (sleep (2 * wait) w2)))
    as (rest & Hrest & _).
  exists rest. split.
  - rewrite Hrest. cbn [sleep snd w_slept].
    pose proof (keeps_sign_in self
                  (dict_get (Auth.opts self) "auth_timeout" (VInt 60))
                  (dict_get (Auth.opts self) "auth_safemode"
                     (dict_get (Auth.opts self) "_safe_auth" (VBool true)))
                  (dict_get (Auth.opts self) "auth_tries" (VInt 1))) as Hkeep.
    fold (driver_sign_in self) in Hkeep.
    pose proof (Hkeep w) as H1. rewrite Hretry1 in H1. cbn [snd] in H1.
    pose proof (Hkeep (snd (sleep wait w1))) as H2. rewrite Hretry2 in H2.
    cbn [sleep snd w_slept] in H2.
    rewrite H2, H1, <- !app_assoc. reflexivity.
  - intros Hall. apply Forall_cons_1 in Hall as [_ Hall].
    apply Forall_cons_1 in Hall as [Hall _]. lia.
Qed.

End Driver.

(** C8 at the fixture: the master answers that it is full. *)
Lemma authenticate_full_raises_TypeError_witness :
  let w := Fixture.world_of Fixture.files_first_contact [Some Fixture.reply_full] in
  fst (SAuth.authenticate_loop (RP := Fixture.toy_rsa) 3 Fixture.minion 10 15 w)
  = Raise TypeError
  /\ w_slept (snd (SAuth.authenticate_loop (RP := Fixture.toy_rsa) 3 Fixture.minion 10 15 w))
     = []
  /\ length (w_sent (snd (SAuth.authenticate_loop (RP := Fixture.toy_rsa) 3
                            Fixture.minion 10 15 w))) = 1%nat.
Proof.
  cbv zeta.
  set (w := Fixture.world_of Fixture.files_first_contact [Some Fixture.reply_full]).
  rewrite (authenticate_full_raises_TypeError (RP := Fixture.toy_rsa) 2 Fixture.minion 10 15 w
             (snd (driver_sign_in (RP := Fixture.toy_rsa) Fixture.minion w))).
  - repeat split; vm_compute; reflexivity.
  - vm_compute. reflexivity.
Defined.

(** C6 at the fixture: wait time 10, maximum 15, and a master that
    answers twice that the key is pending. *)
Lemma authenticate_wait_exceeds_max_witness :
  let w := Fixture.world_of Fixture.files_first_contact
             [Some Fixture.reply_pending; Some Fixture.reply_pending] in
  exists rest,
    w_slept (snd (SAuth.__authenticate (RP := Fixture.toy_rsa) 2 Fixture.minion w))
    = w_slept w ++ 10 :: 2 * 10 :: rest
    /\ ~ Forall (fun t => t <= 15) (10 :: 2 * 10 :: rest).
Proof.
  cbv zeta.
  set (w := Fixture.world_of Fixture.files_first_contact
              [Some Fixture.reply_pending; Some Fixture.reply_pending]).
  apply (authenticate_wait_exceeds_max (RP := Fixture.toy_rsa) 0 Fixture.minion w
           (snd (driver_sign_in (RP := Fixture.toy_rsa) Fixture.minion w))
           (snd (driver_sign_in (RP := Fixture.toy_rsa) Fixture.minion
                   (snd (sleep 10 (snd (driver_sign_in (RP := Fixture.toy_rsa)
                                          Fixture.minion w))))))
           10 15).
  - vm_compute; reflexivity.
  - vm_compute; reflexivity.
  - lia.
  - lia.
  - vm_compute; reflexivity.
  - vm_compute; reflexivity.
  - vm_compute; reflexivity.
Defined.

(** ** Paths *)









(** ** MasterKeys *)

Section MasterKeysFacts.
Context {RP : RsaPrims}.





End MasterKeysFacts.


(** ** Crypticle *)

Lemma py_suffix_app {A} (l k : list A) :
  (0 < length k)%nat -> py_suffix (length k) (l ++ k) = k.
Proof.
  intros Hk. unfold py_suffix. destruct (length k) eqn:E; [lia |].
  rewrite <- E, length_app.
  replace (length l + length k - length k)%nat with (length l) by lia.
  apply drop_app_length.
Qed.

Lemma py_drop_suffix_app {A} (l k : list A) :
  (0 < length k)%nat -> py_drop_suffix (length k) (l ++ k) = l.
Proof.
  intros Hk. unfold py_drop_suffix. destruct (length k) eqn:E; [lia |].
  rewrite <- E, length_app.
  replace (length l + length k - length k)%nat with (length l) by lia.
  apply take_app_length.
Qed.

(** The comparison loop accumulates 0 exactly when the two strings,
    of equal length, are equal. *)
Lemma mac_fold_zero (l : list (ascii * ascii)) (acc : N) :
  fold_left (fun result xy => N.lor result (N.lxor (N_of_ascii (fst xy)) (N_of_ascii (snd xy))))
            l acc = 0%N ->
  acc = 0%N /\ Forall (fun xy => fst xy = snd xy) l.
Proof.
  revert acc. induction l as [|[x y] l IH]; intros acc H; cbn in *.
  - split; [assumption | constructor].
  - apply IH in H as [H Hall]. apply N.lor_eq_0_iff in H as [Hacc Hxor].
    split; [assumption |]. constructor; [| assumption]. cbn.
    apply N.lxor_eq in Hxor.
    rewrite <- (ascii_N_embedding x), <- (ascii_N_embedding y). now rewrite Hxor.
Qed.

Lemma mac_diff_refl (a : bytes) : Crypticle.mac_diff a a = 0%N.
Proof.
  unfold Crypticle.mac_diff.
  assert (H : forall acc, acc = 0%N ->
            fold_left (fun result xy =>
                         N.lor result (N.lxor (N_of_ascii (fst xy)) (N_of_ascii (snd xy))))
                      (zip a a) acc = 0%N).
  { induction a as [|x a IH]; intros acc ->; cbn; [reflexivity |].
    apply IH. now rewrite N.lxor_nilpotent. }
  now apply H.
Qed.

Lemma mac_diff_zero (a b : bytes) :
  length a = length b -> Crypticle.mac_diff a b = 0%N -> a = b.
Proof.
  intros Hlen H. apply mac_fold_zero in H as [_ H].
  revert b Hlen H. induction a as [|x a IH]; intros [|y b] Hlen H; cbn in *;
    try discriminate; [reflexivity |].
  apply Forall_cons_1 in H as [Hxy H]. cbn in Hxy. subst y.
  f_equal. apply IH; [lia | assumption].
Qed.

Section CrypticleFacts.
Context {CP : CipherPrims}.

(** C4.  When the trailing [SIG_SIZE] bytes are not the HMAC of the
    rest, [decrypt] raises [AuthenticationError] and leaves the world as
    it was: in particular no cipher operation has been recorded, so the
    failure comes before any AES decryption. *)
Theorem decrypt_rejects_bad_mac (self : Crypticle.t) (data : bytes) (w : world) :
  py_suffix Crypticle.SIG_SIZE data
    <> hmac_sha256 (snd (Crypticle.keys self)) (py_drop_suffix Crypticle.SIG_SIZE data) ->
  Crypticle.decrypt self data w = (Raise AuthenticationError, w)
  /\ w_aes (snd (Crypticle.decrypt self data w)) = w_aes w.
Proof.
  intros Hmac.
  assert (E : Crypticle.decrypt self data w = (Raise AuthenticationError, w)).
  { unfold Crypticle.decrypt.
    destruct (length (hmac_sha256 (snd (Crypticle.keys self))
                        (py_drop_suffix Crypticle.SIG_SIZE data))
              =? length (py_suffix Crypticle.SIG_SIZE data))%nat eqn:Hlen; [| reflexivity].
    cbn [negb]. apply Nat.eqb_eq in Hlen.
    destruct (Crypticle.mac_diff _ _ =? 0)%N eqn:Hdiff; [| reflexivity].
    apply N.eqb_eq in Hdiff. apply mac_diff_zero in Hdiff; [| assumption].
    congruence. }
  rewrite E. split; reflexivity.
Qed.

Lemma padded_length (m : bytes) :
  (length (padded m) mod Crypticle.AES_BLOCK_SIZE = 0)%nat.
Proof.
  unfold padded, Crypticle.AES_BLOCK_SIZE. rewrite length_app, length_replicate.
  pose proof (Nat.mod_upper_bound (length m) 16 ltac:(lia)) as Hlt.
  pose proof (Nat.div_mod_eq (length m) 16) as Hdm.
  replace (length m + (16 - length m mod 16))%nat
    with (16 * (length m / 16 + 1))%nat by lia.
  rewrite Nat.mul_comm. apply Nat.Div0.mod_mul.
Qed.

Lemma padded_strip (m : bytes) :
  exists c, last (padded m) = Some c /\ py_drop_suffix (nat_of_ascii c) (padded m) = m.
Proof.
  unfold padded, Crypticle.AES_BLOCK_SIZE.
  pose proof (Nat.mod_upper_bound (length m) 16 ltac:(lia)) as Hlt.
  set (pad := (16 - length m mod 16)%nat).
  assert (Hpad : (1 <= pad <= 16)%nat) by (unfold pad; lia).
  exists (ascii_of_nat pad). split.
  - destruct pad as [|p]; [lia |].
    rewrite replicate_S_end, app_assoc. apply last_snoc.
  - rewrite nat_ascii_embedding by lia.
    rewrite <- (length_replicate pad (ascii_of_nat pad)) at 1.
    apply py_drop_suffix_app. rewrite length_replicate. lia.
Qed.

(** C1.  For a key string [extract_keys] accepts at an AES key size,
    [decrypt] gives back what [encrypt] was given, for any random tape,
    that is for any IV. *)
Theorem decrypt_encrypt {L : CipherLaws CP}
    (key_string : bytes) (key_size : Z) (self : Crypticle.t) (m : bytes)
    (w0 w0' w : world) :
  key_size = 128 \/ key_size = 192 \/ key_size = 256 ->
  Crypticle.__init__ key_string key_size w0 = (Ret self, w0') ->
  exists c w' w'',
    Crypticle.encrypt self m w = (Ret c, w')
    /\ Crypticle.decrypt self c w' = (Ret m, w'').
Proof.
  intros Hsize Hinit.
  (* the AES key has key_size / 8 bytes *)
  assert (Hkey : (length (fst (Crypticle.keys self)) = 16
                  \/ length (fst (Crypticle.keys self)) = 24
                  \/ length (fst (Crypticle.keys self)) = 32)%nat).
  { revert Hinit. unfold Crypticle.__init__, Crypticle.extract_keys, bind, from_option, ret, raise.
    destruct (Base64.decodestring key_string) as [key|]; [| discriminate].
    destruct (bool_decide _) eqn:Hlen; [| discriminate].
    apply bool_decide_eq_true in Hlen. intros [= <- _]. cbn [Crypticle.keys fst].
    unfold py_drop_suffix, Crypticle.SIG_SIZE in *. rewrite length_take.
    destruct Hsize as [-> | [-> | ->]];
      [change (128 / 8) with 16 in Hlen | change (192 / 8) with 24 in Hlen
       | change (256 / 8) with 32 in Hlen]; lia. }
  set (aes_key := fst (Crypticle.keys self)) in *.
  set (hmac_key := snd (Crypticle.keys self)).
  set (iv := map (w_tape w) (seq (w_pos w) 16)).
  assert (Hiv : length iv = 16%nat) by (unfold iv; now rewrite length_map, length_seq).
  destruct (aes_cbc_inverse aes_key iv (padded m) Hkey Hiv (padded_length m))
    as (ct & Henc & Hdec).
  set (sig := hmac_sha256 hmac_key (iv ++ ct)).
  assert (Hsig : length sig = 32%nat) by apply hmac_digest_size.
  set (w1 := World (w_fs w) (w_tape w) (w_pos w + 16)%nat (w_seed w) (w_net w) (w_sent w)
                   (w_slept w) (w_aes w ++ [AesEncrypt aes_key iv (padded m)])).
  assert (Hencrypt : Crypticle.encrypt self m w = (Ret ((iv ++ ct) ++ sig), w1)).
  { unfold Crypticle.encrypt. cbv zeta. fold aes_key. fold hmac_key.
    change (m ++ replicate _ _) with (padded m).
    unfold bind, urandom, log_aes.
    change (Z.of_nat Crypticle.AES_BLOCK_SIZE <? 0) with false.
    change (Z.to_nat (Z.of_nat Crypticle.AES_BLOCK_SIZE)) with 16%nat.
    cbv iota beta. fold iv. rewrite Henc. reflexivity. }
  destruct (padded_strip m) as (c & Hlast & Hstrip).
  exists ((iv ++ ct) ++ sig), w1,
    (World (w_fs w1) (w_tape w1) (w_pos w1) (w_seed w1) (w_net w1) (w_sent w1)
           (w_slept w1) (w_aes w1 ++ [AesDecrypt aes_key iv ct])).
  split; [exact Hencrypt |].
  unfold Crypticle.decrypt. fold hmac_key. fold aes_key.
  change Crypticle.SIG_SIZE with 32%nat. rewrite <- Hsig.
  rewrite py_suffix_app, py_drop_suffix_app by lia.
  fold sig. rewrite Nat.eqb_refl, mac_diff_refl. cbn [negb N.eqb].
  change Crypticle.AES_BLOCK_SIZE with 16%nat. rewrite <- Hiv.
  rewrite take_app_length, drop_app_length.
  unfold bind, log_aes, from_option, ret. rewrite Hdec, Hlast, Hstrip. reflexivity.
Qed.

End CrypticleFacts.

Lemma toy_cipher_laws : CipherLaws Fixture.toy_cipher.
Proof.
  split.
  - intros key data. cbn -[replicate take]. rewrite length_take, !length_app, length_replicate.
    unfold Crypticle.SIG_SIZE. lia.
  - intros key iv data Hkey Hiv Hdata. exists (rev data).
    unfold Crypticle.AES_BLOCK_SIZE in *. cbn. unfold Fixture.toy_cbc.
    assert (Hk : Fixture.aes_key_length_ok key = true).
    { unfold Fixture.aes_key_length_ok.
      destruct Hkey as [-> | [-> | ->]]; reflexivity. }
    rewrite Hk, length_rev, Hiv, Hdata, rev_involutive. split; reflexivity.
Qed.

(** C1 at the fixture: the text [hello] under the key of the fixture. *)
Lemma decrypt_encrypt_witness :
  let w := Fixture.world_of ∅ [] in
  exists c w' w'',
    Crypticle.encrypt (CP := Fixture.toy_cipher) Fixture.envelope
      (list_ascii_of_string "hello") w = (Ret c, w')
    /\ Crypticle.decrypt (CP := Fixture.toy_cipher) Fixture.envelope c w'
       = (Ret (list_ascii_of_string "hello"), w'').
Proof.
  cbv zeta.
  apply (decrypt_encrypt (CP := Fixture.toy_cipher) (L := toy_cipher_laws)
           Fixture.key_string 192 Fixture.envelope (list_ascii_of_string "hello")
           (Fixture.world_of ∅ []) (Fixture.world_of ∅ []) (Fixture.world_of ∅ [])).
  - right. left. reflexivity.
  - vm_compute. reflexivity.
Defined.

(** C4 at the fixture: forty bytes [a] do not end with their MAC. *)
Lemma decrypt_rejects_bad_mac_witness :
  let w := Fixture.world_of ∅ [] in
  let data := replicate 40 "a"%char in
  Crypticle.decrypt (CP := Fixture.toy_cipher) Fixture.envelope data w
  = (Raise AuthenticationError, w)
  /\ w_aes (snd (Crypticle.decrypt (CP := Fixture.toy_cipher) Fixture.envelope data w)) = [].
Proof.
  cbv zeta.
  apply (decrypt_rejects_bad_mac (CP := Fixture.toy_cipher) Fixture.envelope
           (replicate 40 "a"%char) (Fixture.world_of ∅ [])).
  vm_compute. discriminate.
Defined.

(** ** The base64 codec *)

Module Base64Facts.
Import Base64 Base64Digits.
#[local] Open Scope N_scope.

(** Lists three bytes at a time. *)
Lemma triple_ind {A} (P : list A -> Prop) :
  P [] -> (forall a, P [a]) -> (forall a b, P [a; b]) ->
  (forall a b c l, P l -> P (a :: b :: c :: l)) ->
  forall l, P l.
Proof.
  intros H0 H1 H2 H3.
  fix IH 1. intros [|a [|b [|c l]]]; [exact H0 | apply H1 | apply H2 | apply H3, IH].
Qed.

Lemma digits_ok : forallb digit_ok (map N.of_nat (seq 0 64)) = true.
Proof. vm_compute. reflexivity. Qed.

Lemma b2a_char_digit (i : N) : i < 64 -> digit_of (b2a_char i) i.
Proof.
  intros Hi. pose proof digits_ok as H. rewrite forallb_forall in H.
  specialize (H i). unfold digit_ok in H.
  assert (Hin : In i (map N.of_nat (seq 0 64))).
  { apply in_map_iff. exists (N.to_nat i). split; [apply N2Nat.id |].
    apply in_seq. lia. }
  apply H in Hin. clear H.
  repeat (apply andb_prop in Hin as [Hin ?]).
  unfold digit_of.
  repeat match goal with
         | H : negb _ = true |- _ => apply negb_true_iff in H
         | H : bool_decide _ = false |- _ => apply bool_decide_eq_false in H
         | H : bool_decide _ = true |- _ => apply bool_decide_eq_true in H
         end.
  tauto.
Qed.

(** One step of the decoder on a digit. *)
Lemma a2b_loop_digit (c : ascii) (v : N) (rest : bytes) (leftchar leftbits quad_pos : N) :
  digit_of c v ->
  a2b_loop (c :: rest) leftchar leftbits quad_pos =
  if 8 <=? leftbits + 6 then
    match a2b_loop rest ((leftchar * 64 + v) mod 2 ^ (leftbits + 6 - 8))
                   (leftbits + 6 - 8) ((quad_pos + 1) mod 4) with
    | Some out =>
        Some (ascii_of_N (((leftchar * 64 + v) / 2 ^ (leftbits + 6 - 8)) mod 256) :: out)
    | None => None
    end
  else a2b_loop rest (leftchar * 64 + v) (leftbits + 6) ((quad_pos + 1) mod 4).
Proof.
  intros (H127 & Hcr & Hnl & Hsp & Hpad & Hidx).
  cbn [a2b_loop]. rewrite H127, Hidx.
  rewrite !bool_decide_eq_false_2 by assumption. reflexivity.
Qed.

Lemma byte_bound (a : ascii) : N_of_ascii a < 256.
Proof. apply N_ascii_bounded. Qed.

Ltac n_arith := zify; Z.to_euclidean_division_equations; lia.

(** The four digits of three bytes decode to the three bytes. *)
Lemma a2b_loop_group_N (x y z : N) (rest : bytes) :
  x < 256 -> y < 256 -> z < 256 ->
  a2b_loop (b2a_char (x / 4) :: b2a_char ((x mod 4) * 16 + y / 16)
              :: b2a_char ((y mod 16) * 4 + z / 64) :: b2a_char (z mod 64) :: rest) 0 0 0
  = match a2b_loop rest 0 0 0 with
    | Some out => Some (ascii_of_N x :: ascii_of_N y :: ascii_of_N z :: out)
    | None => None
    end.
Proof.
  intros Hx Hy Hz.
  rewrite (a2b_loop_digit _ (x / 4)) by (apply b2a_char_digit; n_arith).
  change (8 <=? 0 + 6) with false. cbv iota.
  rewrite (a2b_loop_digit _ ((x mod 4) * 16 + y / 16)) by (apply b2a_char_digit; n_arith).
  change (8 <=? 0 + 6 + 6) with true. cbv iota.
  rewrite (a2b_loop_digit _ ((y mod 16) * 4 + z / 64)) by (apply b2a_char_digit; n_arith).
  change (0 + 6 + 6 - 8) with 4. change (8 <=? 4 + 6) with true. cbv iota.
  rewrite (a2b_loop_digit _ (z mod 64)) by (apply b2a_char_digit; n_arith).
  change (4 + 6 - 8) with 2. change (8 <=? 2 + 6) with true. cbv iota.
  change (2 + 6 - 8) with 0.
  change ((((0 + 1) mod 4 + 1) mod 4 + 1) mod 4 + 1) with 4.
  change (4 mod 4) with 0. change (2 ^ 0) with 1. change (2 ^ 4) with 16. change (2 ^ 2) with 4.
  replace ((((0 * 64 + x / 4) * 64 + (x mod 4 * 16 + y / 16)) mod 16 * 64
            + (y mod 16 * 4 + z / 64)) mod 4 * 64 + z mod 64) with z by n_arith.
  replace (z mod 1) with 0 by n_arith.
  replace ((z / 1) mod 256) with z by n_arith.
  replace ((((0 * 64 + x / 4) * 64 + (x mod 4 * 16 + y / 16)) mod 16 * 64
            + (y mod 16 * 4 + z / 64)) / 4 mod 256) with y by n_arith.
  replace (((0 * 64 + x / 4) * 64 + (x mod 4 * 16 + y / 16)) / 16 mod 256) with x by n_arith.
  destruct (a2b_loop rest 0 0 0); reflexivity.
Qed.

Lemma a2b_loop_group (a b c : ascii) (rest : bytes) :
  a2b_loop (b2a_groups [a; b; c] ++ rest) 0 0 0
  = match a2b_loop rest 0 0 0 with
    | Some out => Some (a :: b :: c :: out)
    | None => None
    end.
Proof.
  cbn [b2a_groups app].
  rewrite a2b_loop_group_N by apply byte_bound.
  now rewrite !ascii_N_embedding.
Qed.

(** The last group of one byte, with its two pads. *)
Lemma a2b_loop_one (a : ascii) : a2b_loop (b2a_groups [a]) 0 0 0 = Some [a].
Proof.
  pose proof (byte_bound a) as Hx. cbn [b2a_groups].
  set (x := N_of_ascii a) in *.
  assert (Ha : ascii_of_N x = a) by apply ascii_N_embedding.
  clearbody x.
  rewrite (a2b_loop_digit _ (x / 4)) by (apply b2a_char_digit; n_arith).
  change (8 <=? 0 + 6) with false. cbv iota.
  rewrite (a2b_loop_digit _ ((x mod 4) * 16)) by (apply b2a_char_digit; n_arith).
  change (8 <=? 0 + 6 + 6) with true. cbv iota.
  change (0 + 6 + 6 - 8) with 4. change (2 ^ 4) with 16.
  replace (((0 * 64 + x / 4) * 64 + x mod 4 * 16) / 16 mod 256) with x by n_arith.
  rewrite Ha. reflexivity.
Qed.

(** The last group of two bytes, with its pad. *)
Lemma a2b_loop_two (a b : ascii) : a2b_loop (b2a_groups [a; b]) 0 0 0 = Some [a; b].
Proof.
  pose proof (byte_bound a) as Hx. pose proof (byte_bound b) as Hy. cbn [b2a_groups].
  set (x := N_of_ascii a) in *. set (y := N_of_ascii b) in *.
  assert (Ha : ascii_of_N x = a) by apply ascii_N_embedding.
  assert (Hb : ascii_of_N y = b) by apply ascii_N_embedding.
  clearbody x y.
  rewrite (a2b_loop_digit _ (x / 4)) by (apply b2a_char_digit; n_arith).
  change (8 <=? 0 + 6) with false. cbv iota.
  rewrite (a2b_loop_digit _ ((x mod 4) * 16 + y / 16)) by (apply b2a_char_digit; n_arith).
  change (8 <=? 0 + 6 + 6) with true. cbv iota.
  rewrite (a2b_loop_digit _ ((y mod 16) * 4)) by (apply b2a_char_digit; n_arith).
  change (0 + 6 + 6 - 8) with 4. change (8 <=? 4 + 6) with true. cbv iota.
  change (4 + 6 - 8) with 2. change (2 ^ 4) with 16. change (2 ^ 2) with 4.
  replace ((((0 * 64 + x / 4) * 64 + (x mod 4 * 16 + y / 16)) mod 16 * 64
            + y mod 16 * 4) / 4 mod 256) with y by n_arith.
  replace (((0 * 64 + x / 4) * 64 + (x mod 4 * 16 + y / 16)) / 16 mod 256) with x by n_arith.
  rewrite Ha, Hb. reflexivity.
Qed.

(** Decoding undoes encoding. *)
Theorem decode_b2a_groups (s : bytes) : decodestring (b2a_groups s) = Some s.
Proof.
  unfold decodestring. induction s as [| a | a b | a b c l IH] using triple_ind.
  - reflexivity.
  - apply a2b_loop_one.
  - apply a2b_loop_two.
  - change (b2a_groups (a :: b :: c :: l)) with (b2a_groups [a; b; c] ++ b2a_groups l).
    now rewrite a2b_loop_group, IH.
Qed.



(** No digit and no pad is a newline. *)
Lemma b2a_char_not_NL (i : N) : b2a_char i <> NL.
Proof.
  unfold b2a_char.
  destruct (i <? 26) eqn:H1; [apply N.ltb_lt in H1 |].
  { intros E. apply (f_equal N_of_ascii) in E.
    rewrite N_ascii_embedding in E by lia. cbn in E. lia. }
  destruct (i <? 52) eqn:H2; [apply N.ltb_lt in H2 |].
  { intros E. apply (f_equal N_of_ascii) in E.
    rewrite N_ascii_embedding in E by lia. cbn in E. lia. }
  destruct (i <? 62) eqn:H3; [apply N.ltb_lt in H3 |].
  { intros E. apply (f_equal N_of_ascii) in E.
    rewrite N_ascii_embedding in E by lia. cbn in E. lia. }
  destruct (i =? 62); discriminate.
Qed.

Lemma b2a_groups_no_NL (s : bytes) : Forall (fun c => c <> NL) (b2a_groups s).
Proof.
  induction s as [| a | a b | a b c l IH] using triple_ind; cbn [b2a_groups];
    repeat constructor; try apply b2a_char_not_NL; try discriminate; assumption.
Qed.

Lemma remove_NL_b2a_groups (s : bytes) : remove_char NL (b2a_groups s) = b2a_groups s.
Proof.
  unfold remove_char. pose proof (b2a_groups_no_NL s) as H.
  induction H as [|c l Hc H IH]; [reflexivity |].
  rewrite filter_cons_True by assumption. now rewrite IH.
Qed.

Lemma b2a_groups_app (s t : bytes) :
  (length s mod 3 = 0)%nat -> b2a_groups (s ++ t) = b2a_groups s ++ b2a_groups t.
Proof.
  induction s as [| a | a b | a b c l IH] using triple_ind; intros H.
  - reflexivity.
  - discriminate.
  - discriminate.
  - cbn [app b2a_groups]. rewrite IH; [reflexivity |].
    cbn [length] in H. 
    replace (S (S (S (length l)))) with (length l + 1 * 3)%nat in H by lia.
    now rewrite Nat.Div0.mod_add in H.
Qed.

(** Without its newlines, the encoded text is the run of digit groups. *)
Lemma encodestring_chunks (fuel : nat) (s : bytes) :
  (length s <= fuel)%nat ->
  remove_char NL (concat (map b2a_base64 (chunks fuel MAXBINSIZE s))) = b2a_groups s.
Proof.
  revert s. induction fuel as [|fuel IH]; intros s Hlen.
  - destruct s; [reflexivity | cbn in Hlen; lia].
  - destruct s as [|a s]; [reflexivity |].
    set (l := a :: s) in *. change (chunks (S fuel) MAXBINSIZE l)
      with (take MAXBINSIZE l :: chunks fuel MAXBINSIZE (drop MAXBINSIZE l)).
    cbn [map concat]. unfold b2a_base64 at 1. unfold remove_char in *.
    rewrite !filter_app. fold (remove_char NL (b2a_groups (take MAXBINSIZE l))).
    rewrite remove_NL_b2a_groups.
    rewrite filter_cons_False by (intros H; now apply H). rewrite filter_nil, app_nil_r.
    rewrite IH by (rewrite length_drop; unfold l, MAXBINSIZE in *; cbn [length] in *; lia).
    destruct (le_lt_dec MAXBINSIZE (length l)) as [Hge | Hlt].
    + rewrite <- b2a_groups_app, take_drop; [reflexivity |].
      rewrite length_take. unfold MAXBINSIZE in *.
      replace (57 `min` length l)%nat with 57%nat by lia. reflexivity.
    + rewrite take_ge, drop_ge by lia. cbn [b2a_groups]. now rewrite app_nil_r.
Qed.

Theorem remove_NL_encodestring (s : bytes) :
  remove_char NL (encodestring s) = b2a_groups s.
Proof. apply encodestring_chunks. lia. Qed.

Lemma b2a_groups_length (s : bytes) :
  length (b2a_groups s) = (4 * ((length s + 2) / 3))%nat.
Proof.
  induction s as [| a | a b | a b c l IH] using triple_ind; try reflexivity.
  cbn [b2a_groups length]. rewrite IH.
  replace (S (S (S (length l))) + 2)%nat with ((length l + 2) + 1 * 3)%nat by lia.
  rewrite Nat.div_add by lia. lia.
Qed.

End Base64Facts.

(** ** Key strings and the sign-in token *)


Lemma urandom_run (n : Z) (w : world) :
  0 <= n ->
  urandom n w
  = (Ret (map (w_tape w) (seq (w_pos w) (Z.to_nat n))),
     World (w_fs w) (w_tape w) (w_pos w + Z.to_nat n)%nat (w_seed w) (w_net w)
           (w_sent w) (w_slept w) (w_aes w)).
Proof.
  intros Hn. unfold urandom.
  destruct (n <? 0) eqn:E; [apply Z.ltb_lt in E; lia | reflexivity].
Qed.

Lemma generate_key_string_run (key_size : Z) (w : world) :
  0 <= key_size ->
  let n := Z.to_nat (key_size / 8 + 32) in
  Crypticle.generate_key_string key_size w
  = (Ret (Base64.b2a_groups (map (w_tape w) (seq (w_pos w) n))),
     World (w_fs w) (w_tape w) (w_pos w + n)%nat (w_seed w) (w_net w)
           (w_sent w) (w_slept w) (w_aes w)).
Proof.
  intros Hn n. unfold Crypticle.generate_key_string, bind.
  change (Z.of_nat Crypticle.SIG_SIZE) with 32.
  rewrite urandom_run by (pose proof (Z.div_pos key_size 8); lia).
  unfold ret. now rewrite Base64Facts.remove_NL_encodestring.
Qed.

(** C9.  For a key size [n >= 0], [generate_key_string(n)] returns a
    text without newlines that decodes to the [n/8 + 32] random bytes
    drawn, and [extract_keys] of that text and [n] returns buffers of
    [n/8] and [32] bytes. *)
Theorem extract_generated_keys (key_size : Z) (w : world) :
  0 <= key_size ->
  exists key_string w' key,
    Crypticle.generate_key_string key_size w = (Ret key_string, w')
    /\ Forall (fun c => c <> Base64.NL) key_string
    /\ Base64.decodestring key_string = Some key
    /\ Z.of_nat (length key) = key_size / 8 + 32
    /\ (forall w2, exists aes_key hmac_key,
          Crypticle.extract_keys key_string key_size w2 = (Ret (aes_key, hmac_key), w2)
          /\ Z.of_nat (length aes_key) = key_size / 8
          /\ length hmac_key = 32%nat).
Proof.
  intros Hn. pose proof (Z.div_pos key_size 8 Hn ltac:(lia)) as Hdiv.
  set (n := Z.to_nat (key_size / 8 + 32)).
  set (key := map (w_tape w) (seq (w_pos w) n)).
  assert (Hlen : length key = n) by (unfold key; now rewrite length_map, length_seq).
  eexists _, _, key. split; [apply generate_key_string_run; assumption |]. fold n. fold key.
  split; [apply Base64Facts.b2a_groups_no_NL |].
  split; [apply Base64Facts.decode_b2a_groups |].
  split; [rewrite Hlen; unfold n; lia |].
  intros w2. exists (py_drop_suffix 32 key), (py_suffix 32 key).
  unfold Crypticle.extract_keys, bind, from_option.
  rewrite Base64Facts.decode_b2a_groups. unfold ret.
  change (Z.of_nat Crypticle.SIG_SIZE) with 32. change Crypticle.SIG_SIZE with 32%nat.
  rewrite bool_decide_eq_true_2 by (rewrite Hlen; unfold n; lia).
  split; [reflexivity |].
  unfold py_drop_suffix, py_suffix. rewrite length_take, length_drop, Hlen.
  unfold n. split; lia.
Qed.

(** C9 at 192 bits. *)
Lemma extract_generated_keys_witness :
  exists key_string w' key,
    Crypticle.generate_key_string 192 (Fixture.world_of ∅ []) = (Ret key_string, w')
    /\ Forall (fun c => c <> Base64.NL) key_string
    /\ Base64.decodestring key_string = Some key
    /\ Z.of_nat (length key) = 192 / 8 + 32
    /\ (forall w2, exists aes_key hmac_key,
          Crypticle.extract_keys key_string 192 w2 = (Ret (aes_key, hmac_key), w2)
          /\ Z.of_nat (length aes_key) = 192 / 8
          /\ length hmac_key = 32%nat).
Proof. apply (extract_generated_keys 192 (Fixture.world_of ∅ [])). lia. Defined.

(** Outside the range of the claim: a negative key size that
    [os.urandom] still accepts gives an empty AES key and a short HMAC
    key. *)
Example extract_keys_negative_size :
  exists key_string w',
    Crypticle.generate_key_string (-8) (Fixture.world_of ∅ []) = (Ret key_string, w')
    /\ exists aes_key hmac_key,
         Crypticle.extract_keys key_string (-8) w' = (Ret (aes_key, hmac_key), w')
         /\ length aes_key = 0%nat /\ length hmac_key = 31%nat.
Proof.
  eexists _, _. split; [vm_compute; reflexivity |].
  eexists _, _. split; [vm_compute; reflexivity |]. split; reflexivity.
Qed.

Section TokenFacts.
Context {RP : RsaPrims}.

Lemma bind_inv {A B} (m : M A) (k : A -> M B) (w w' : world) (b : B) :
  bind m k w = (Ret b, w') ->
  exists a w1, m w = (Ret a, w1) /\ k a w1 = (Ret b, w').
Proof.
  unfold bind. destruct (m w) as [[a|e|c|] w1]; try discriminate. eauto.
Qed.

Lemma try_except_inv {A} (m : M A) handled (h : exn -> M A) (w w' : world) (a : A) :
  try_except m handled h w = (Ret a, w') ->
  m w = (Ret a, w') \/ exists e w1, m w = (Raise e, w1) /\ h e w1 = (Ret a, w').
Proof.
  unfold try_except. destruct (m w) as [[a'|e|c|] w1]; try discriminate.
  - intros [= <- <-]. now left.
  - destruct (handled e); [| discriminate]. intros H. right. eauto.
Qed.

Ltac inv_bind H :=
  repeat match type of H with
         | bind _ _ _ = (Ret _, _) =>
             let a := fresh "a" in
             let w := fresh "w" in
             let Hm := fresh "Hm" in
             apply bind_inv in H as (a & w & Hm & H)
         end.





End TokenFacts.




(** ** More on Crypticle *)

Lemma bytes_startswith_app (p s : bytes) : bytes_startswith p (p ++ s) = true.
Proof.
  induction p as [|a p IH]; [reflexivity |].
  cbn. rewrite bool_decide_eq_true_2 by reflexivity. exact IH.
Qed.

Section CrypticleMore.
Context {CP : CipherPrims}.

(** What [encrypt] does, step by step, when the cipher accepts. *)
Lemma encrypt_run (self : Crypticle.t) (m ct : bytes) (w : world) :
  let iv := map (w_tape w) (seq (w_pos w) 16) in
  aes_cbc_encrypt (fst (Crypticle.keys self)) iv (padded m) = Some ct ->
  Crypticle.encrypt self m w
  = (Ret ((iv ++ ct) ++ hmac_sha256 (snd (Crypticle.keys self)) (iv ++ ct)),
     World (w_fs w) (w_tape w) (w_pos w + 16)%nat (w_seed w) (w_net w) (w_sent w)
           (w_slept w) (w_aes w ++ [AesEncrypt (fst (Crypticle.keys self)) iv (padded m)])).
Proof.
  intros iv Henc. unfold Crypticle.encrypt. cbv zeta.
  change (m ++ replicate _ _) with (padded m).
  unfold bind, urandom, log_aes.
  change (Z.of_nat Crypticle.AES_BLOCK_SIZE <? 0) with false.
  change (Z.to_nat (Z.of_nat Crypticle.AES_BLOCK_SIZE)) with 16%nat.
  cbv iota beta. fold iv. rewrite Henc. reflexivity.
Qed.

(** What [decrypt] does on an authentic message when the cipher gives
    back padded text. *)
Lemma decrypt_run {L : CipherLaws CP} (self : Crypticle.t) (iv ct m : bytes) (w : world) :
  length iv = 16%nat ->
  aes_cbc_decrypt (fst (Crypticle.keys self)) iv ct = Some (padded m) ->
  Crypticle.decrypt self ((iv ++ ct) ++ hmac_sha256 (snd (Crypticle.keys self)) (iv ++ ct)) w
  = (Ret m,
     World (w_fs w) (w_tape w) (w_pos w) (w_seed w) (w_net w) (w_sent w)
           (w_slept w) (w_aes w ++ [AesDecrypt (fst (Crypticle.keys self)) iv ct])).
Proof.
  intros Hiv Hdec.
  set (sig := hmac_sha256 (snd (Crypticle.keys self)) (iv ++ ct)).
  assert (Hsig : length sig = 32%nat) by apply hmac_digest_size.
  destruct (padded_strip m) as (c & Hlast & Hstrip).
  unfold Crypticle.decrypt.
  change Crypticle.SIG_SIZE with 32%nat. rewrite <- Hsig.
  rewrite py_suffix_app, py_drop_suffix_app by lia.
  fold sig. rewrite Nat.eqb_refl, mac_diff_refl. cbn [negb N.eqb].
  change Crypticle.AES_BLOCK_SIZE with 16%nat. rewrite <- Hiv.
  rewrite take_app_length, drop_app_length.
  unfold bind, log_aes, from_option, ret. rewrite Hdec, Hlast, Hstrip. reflexivity.
Qed.

(** Encryption followed by decryption, for an envelope whose AES key
    has a valid length. *)
Lemma encrypt_decrypt_run {L : CipherLaws CP} (self : Crypticle.t) (m : bytes) (w : world) :
  (length (fst (Crypticle.keys self)) = 16 \/ length (fst (Crypticle.keys self)) = 24
   \/ length (fst (Crypticle.keys self)) = 32)%nat ->
  exists c w' w'',
    Crypticle.encrypt self m w = (Ret c, w')
    /\ Crypticle.decrypt self c w' = (Ret m, w'').
Proof.
  intros Hkey.
  set (iv := map (w_tape w) (seq (w_pos w) 16)).
  assert (Hiv : length iv = 16%nat) by (unfold iv; now rewrite length_map, length_seq).
  destruct (aes_cbc_inverse (fst (Crypticle.keys self)) iv (padded m) Hkey Hiv
              (padded_length m)) as (ct & Henc & Hdec).
  eexists _, _, _. split; [apply encrypt_run; exact Henc |].
  fold iv. apply decrypt_run; assumption.
Qed.

(** X3.  An input shorter than a MAC (the empty string included) is
    rejected with [AuthenticationError] before anything else happens. *)
Theorem decrypt_short_input {L : CipherLaws CP}
    (self : Crypticle.t) (data : bytes) (w : world) :
  (length data < 32)%nat ->
  Crypticle.decrypt self data w = (Raise AuthenticationError, w).
Proof.
  intros Hlen. unfold Crypticle.decrypt.
  rewrite hmac_digest_size.
  assert (Hsuf : (length (py_suffix Crypticle.SIG_SIZE data) < 32)%nat).
  { unfold py_suffix, Crypticle.SIG_SIZE. rewrite length_drop. lia. }
  destruct (Crypticle.SIG_SIZE =? length (py_suffix Crypticle.SIG_SIZE data))%nat eqn:E;
    [| reflexivity].
  apply Nat.eqb_eq in E. unfold Crypticle.SIG_SIZE in E at 1. lia.
Qed.

(** X4.  Whatever the plaintext, [encrypt] takes the next 16 bytes of the
    random tape as IV and hands the cipher the plaintext followed by [p]
    bytes of value [p], with [1 <= p <= 16], a whole number of blocks. *)
Theorem encrypt_pads_to_blocks (self : Crypticle.t) (m : bytes) (w : world) :
  exists p iv,
    (1 <= p <= 16)%nat
    /\ (length (m ++ replicate p (ascii_of_nat p)) mod 16 = 0)%nat
    /\ iv = map (w_tape w) (seq (w_pos w) 16)
    /\ w_aes (snd (Crypticle.encrypt self m w))
       = w_aes w ++ [AesEncrypt (fst (Crypticle.keys self)) iv
                                (m ++ replicate p (ascii_of_nat p))]
    /\ w_pos (snd (Crypticle.encrypt self m w)) = (w_pos w + 16)%nat.
Proof.
  pose proof (Nat.mod_upper_bound (length m) 16 ltac:(lia)) as Hlt.
  exists (16 - length m mod 16)%nat, (map (w_tape w) (seq (w_pos w) 16)).
  split; [lia |]. split; [apply (padded_length m) |]. split; [reflexivity |].
  unfold Crypticle.encrypt. cbv zeta.
  unfold bind, urandom, log_aes.
  change (Z.of_nat Crypticle.AES_BLOCK_SIZE <? 0) with false.
  change (Z.to_nat (Z.of_nat Crypticle.AES_BLOCK_SIZE)) with 16%nat.
  cbv iota beta. unfold Crypticle.AES_BLOCK_SIZE, from_option.
  destruct (aes_cbc_encrypt _ _ _); split; reflexivity.
Qed.

(** X5.  The comparison loop of [decrypt] ends with 0 exactly when the
    two strings, of the same length, are equal. *)
Theorem mac_diff_zero_iff (a b : bytes) :
  length a = length b -> (Crypticle.mac_diff a b = 0%N <-> a = b).
Proof.
  intros Hlen. split.
  - now apply mac_diff_zero.
  - intros ->. apply mac_diff_refl.
Qed.

End CrypticleMore.

Section SerialMore.
Context {CP : CipherPrims} {SP : SerialPrims}.

(** X1.  [loads] undoes [dumps]: for an envelope with a valid AES key
    and a codec whose [loads] undoes its [dumps], any object comes back,
    whatever the IV. *)
Theorem loads_dumps {L : CipherLaws CP}
    (self : Crypticle.t) (obj : pyobj) (w : world) :
  (length (fst (Crypticle.keys self)) = 16 \/ length (fst (Crypticle.keys self)) = 24
   \/ length (fst (Crypticle.keys self)) = 32)%nat ->
  (forall o, serial_loads (serial_dumps o) = Some o) ->
  exists c w' w'',
    CrypticleSerial.dumps self obj w = (Ret c, w')
    /\ CrypticleSerial.loads self c w' = (Ret obj, w'').
Proof.
  intros Hkey Hserial. unfold CrypticleSerial.dumps, CrypticleSerial.loads.
  destruct (encrypt_decrypt_run self (CrypticleSerial.PICKLE_PAD ++ serial_dumps obj) w Hkey)
    as (c & w' & w'' & Henc & Hdec).
  exists c, w', w''. split; [exact Henc |].
  unfold bind. rewrite Hdec, bytes_startswith_app. cbn [negb].
  rewrite drop_app_length, Hserial. reflexivity.
Qed.

(** X2.  A message made by [encrypt] from a text that does not start
    with the magic [pickle::] passes authentication, and [loads] answers
    the empty dict for it, whatever the codec would make of the text. *)
Theorem loads_without_magic {L : CipherLaws CP}
    (self : Crypticle.t) (m : bytes) (w : world) :
  (length (fst (Crypticle.keys self)) = 16 \/ length (fst (Crypticle.keys self)) = 24
   \/ length (fst (Crypticle.keys self)) = 32)%nat ->
  bytes_startswith CrypticleSerial.PICKLE_PAD m = false ->
  exists c w' w'',
    Crypticle.encrypt self m w = (Ret c, w')
    /\ CrypticleSerial.loads self c w' = (Ret empty_dict, w'').
Proof.
  intros Hkey Hmagic. unfold CrypticleSerial.loads.
  destruct (encrypt_decrypt_run self m w Hkey) as (c & w' & w'' & Henc & Hdec).
  exists c, w', w''. split; [exact Henc |].
  unfold bind. rewrite Hdec, Hmagic. reflexivity.
Qed.

End SerialMore.

Lemma envelope_key_ok :
  (length (fst (Crypticle.keys Fixture.envelope)) = 16
   \/ length (fst (Crypticle.keys Fixture.envelope)) = 24
   \/ length (fst (Crypticle.keys Fixture.envelope)) = 32)%nat.
Proof. right. left. reflexivity. Qed.

(** X1 at the fixture. *)
Lemma loads_dumps_witness :
  exists c w' w'',
    CrypticleSerial.dumps (CP := Fixture.toy_cipher) (SP := Fixture2.toy_serial)
      Fixture.envelope (list_ascii_of_string "job") (Fixture.world_of ∅ []) = (Ret c, w')
    /\ CrypticleSerial.loads (CP := Fixture.toy_cipher) (SP := Fixture2.toy_serial)
         Fixture.envelope c w' = (Ret (list_ascii_of_string "job"), w'').
Proof.
  apply (loads_dumps (CP := Fixture.toy_cipher) (SP := Fixture2.toy_serial)
           (L := toy_cipher_laws) Fixture.envelope (list_ascii_of_string "job")
           (Fixture.world_of ∅ []) envelope_key_ok).
  intros o. reflexivity.
Defined.

(** X2 at the fixture. *)
Lemma loads_without_magic_witness :
  exists c w' w'',
    Crypticle.encrypt (CP := Fixture.toy_cipher) Fixture.envelope
      (list_ascii_of_string "hello") (Fixture.world_of ∅ []) = (Ret c, w')
    /\ CrypticleSerial.loads (CP := Fixture.toy_cipher) (SP := Fixture2.toy_serial)
         Fixture.envelope c w' = (Ret [], w'').
Proof.
  apply (loads_without_magic (CP := Fixture.toy_cipher) (SP := Fixture2.toy_serial)
           (L := toy_cipher_laws) Fixture.envelope (list_ascii_of_string "hello")
           (Fixture.world_of ∅ []) envelope_key_ok).
  reflexivity.
Defined.

(** X3 at the fixture: ten bytes. *)
Lemma decrypt_short_input_witness :
  Crypticle.decrypt (CP := Fixture.toy_cipher) Fixture.envelope
    (replicate 10 "a"%char) (Fixture.world_of ∅ [])
  = (Raise AuthenticationError, Fixture.world_of ∅ []).
Proof.
  apply (decrypt_short_input (CP := Fixture.toy_cipher) (L := toy_cipher_laws)).
  cbn. lia.
Defined.

(** X5 on two three-byte strings. *)
Lemma mac_diff_zero_iff_witness :
  Crypticle.mac_diff (list_ascii_of_string "abc") (list_ascii_of_string "abd") = 0%N
  <-> list_ascii_of_string "abc" = list_ascii_of_string "abd".
Proof. apply mac_diff_zero_iff. reflexivity. Defined.

(** ** More on key strings *)

Section KeyStrings.
Context {CP : CipherPrims}.

(** X6.  [extract_keys] splits the key string of [aes_key ++ hmac_key]
    back into the two keys, when the AES key has [key_size / 8] bytes
    and the HMAC key 32. *)
Theorem extract_keys_concat (aes_key hmac_key : bytes) (key_size : Z) (w : world) :
  Z.of_nat (length aes_key) = key_size / 8 ->
  length hmac_key = 32%nat ->
  Crypticle.extract_keys
    (remove_char Base64.NL (Base64.encodestring (aes_key ++ hmac_key))) key_size w
  = (Ret (aes_key, hmac_key), w).
Proof.
  intros Haes Hmac. rewrite Base64Facts.remove_NL_encodestring.
  unfold Crypticle.extract_keys, bind, from_option.
  rewrite Base64Facts.decode_b2a_groups. unfold ret.
  change (Z.of_nat Crypticle.SIG_SIZE) with 32. change Crypticle.SIG_SIZE with 32%nat.
  rewrite bool_decide_eq_true_2 by (rewrite length_app; lia).
  rewrite <- Hmac. rewrite py_drop_suffix_app, py_suffix_app by lia. reflexivity.
Qed.

(** X7.  A key string whose bytes are not [key_size / 8 + 32] in number
    fails the assertion of [extract_keys]: key material made for one key
    size is refused at another. *)
Theorem extract_keys_wrong_size (key : bytes) (key_size : Z) (w : world) :
  Z.of_nat (length key) <> key_size / 8 + 32 ->
  Crypticle.extract_keys (remove_char Base64.NL (Base64.encodestring key)) key_size w
  = (Raise AssertionError, w).
Proof.
  intros Hlen. rewrite Base64Facts.remove_NL_encodestring.
  unfold Crypticle.extract_keys, bind, from_option.
  rewrite Base64Facts.decode_b2a_groups. unfold ret.
  change (Z.of_nat Crypticle.SIG_SIZE) with 32.
  rewrite bool_decide_eq_false_2 by assumption. reflexivity.
Qed.

(** X8.  Two calls of [generate_key_string] in a row return texts of
    [4 * ceil(k / 3)] characters that decode to adjacent, disjoint
    stretches of [k = key_size / 8 + 32] bytes of the random tape. *)
Theorem generate_key_string_twice (key_size : Z) (w : world) :
  0 <= key_size ->
  let k := Z.to_nat (key_size / 8 + 32) in
  exists s1 w1 s2 w2,
    Crypticle.generate_key_string key_size w = (Ret s1, w1)
    /\ Crypticle.generate_key_string key_size w1 = (Ret s2, w2)
    /\ length s1 = (4 * ((k + 2) / 3))%nat
    /\ length s2 = (4 * ((k + 2) / 3))%nat
    /\ Base64.decodestring s1 = Some (map (w_tape w) (seq (w_pos w) k))
    /\ Base64.decodestring s2 = Some (map (w_tape w) (seq (w_pos w + k) k)).
Proof.
  intros Hn k. eexists _, _, _, _.
  split; [apply generate_key_string_run; assumption |].
  split; [apply generate_key_string_run; assumption |].
  fold k. cbn [w_tape w_pos].
  rewrite !Base64Facts.b2a_groups_length, !length_map, !length_seq.
  repeat split; try reflexivity; apply Base64Facts.decode_b2a_groups.
Qed.

(** X9.  A key size so negative that the number of bytes asked of
    [os.urandom] is negative makes [generate_key_string] raise
    [ValueError]; nothing is drawn. *)
Theorem generate_key_string_negative (key_size : Z) (w : world) :
  key_size / 8 + 32 < 0 ->
  Crypticle.generate_key_string key_size w = (Raise ValueError, w).
Proof.
  intros Hneg. unfold Crypticle.generate_key_string, bind, urandom.
  change (Z.of_nat Crypticle.SIG_SIZE) with 32.
  destruct (key_size / 8 + 32 <? 0) eqn:E; [reflexivity | apply Z.ltb_ge in E; lia].
Qed.

End KeyStrings.

(** X6 at the fixture: 24 and 32 bytes at 192 bits. *)
Lemma extract_keys_concat_witness :
  Crypticle.extract_keys
    (remove_char Base64.NL
       (Base64.encodestring (take 24 Fixture.key_bytes ++ drop 24 Fixture.key_bytes)))
    192 (Fixture.world_of ∅ [])
  = (Ret (take 24 Fixture.key_bytes, drop 24 Fixture.key_bytes), Fixture.world_of ∅ []).
Proof. apply extract_keys_concat; reflexivity. Defined.

(** X7 at the fixture: the 56 bytes of a 192 bit key at 256 bits. *)
Lemma extract_keys_wrong_size_witness :
  Crypticle.extract_keys
    (remove_char Base64.NL (Base64.encodestring Fixture.key_bytes)) 256
    (Fixture.world_of ∅ [])
  = (Raise AssertionError, Fixture.world_of ∅ []).
Proof. apply extract_keys_wrong_size. vm_compute. discriminate. Defined.

(** X8 at 192 bits. *)
Lemma generate_key_string_twice_witness :
  exists s1 w1 s2 w2,
    Crypticle.generate_key_string 192 (Fixture.world_of ∅ []) = (Ret s1, w1)
    /\ Crypticle.generate_key_string 192 w1 = (Ret s2, w2)
    /\ length s1 = 76%nat
    /\ length s2 = 76%nat
    /\ Base64.decodestring s1 = Some (map ascii_of_nat (seq 0 56))
    /\ Base64.decodestring s2 = Some (map ascii_of_nat (seq 56 56)).
Proof. apply (generate_key_string_twice 192 (Fixture.world_of ∅ [])). lia. Defined.

(** X9 at -264 bits. *)
Lemma generate_key_string_negative_witness :
  Crypticle.generate_key_string (-264) (Fixture.world_of ∅ [])
  = (Raise ValueError, Fixture.world_of ∅ []).
Proof. apply generate_key_string_negative. reflexivity. Defined.

(** ** Key files *)


Section KeyFiles.
Context {RP : RsaPrims}.



(** X12.  [master_use_pubkey_signature]: once the master key is there,
    a missing signature file ends [MasterKeys.__init__] with
    [sys.exit(1)]; a present one becomes [pubkey_signature()], and no
    signing key is loaded or made. *)
Theorem master_keys_signature_file
    (opts : pydict) (w w1 : world) (pki signame tok : string) (sign use_sig : pyval)
    (mk : privkey) :
  opts !! "pki_dir"%string = Some (VStr pki) ->
  opts !! "master_sign_pubkey"%string = Some sign -> truthy sign = true ->
  opts !! "master_use_pubkey_signature"%string = Some use_sig -> truthy use_sig = true ->
  opts !! "master_pubkey_signature"%string = Some (VStr signame) ->
  MasterKeys.__get_keys opts (path_join pki "master.pem") "master" w = (Ret mk, w1) ->
  rsa_private_encrypt mk "salty bacon" 5 = Some tok ->
  match w_fs w1 !! path_join pki signame with
  | None => MasterKeys.__init__ opts w = (Exit 1, w1)
  | Some s =>
      exists obj,
        MasterKeys.__init__ opts w = (Ret obj, w1)
        /\ MasterKeysMethods.pubkey_signature obj = Some s
        /\ MasterKeys.sign_key obj = None
        /\ MasterKeys.key obj = mk
  end.
Proof.
  intros Hpki Hsign Hsignt Huse Huset Hname Hmaster Htok.
  unfold MasterKeys.__init__, MasterKeys.__gen_token.
  unfold bind at 1. unfold bind at 1. unfold getitem at 1. rewrite Hpki.
  cbn -[path_join MasterKeys.__get_keys].
  unfold bind at 1. rewrite Hmaster.
  destruct (w_fs w1 !! path_join pki signame) as [s|] eqn:Hfile.
  - eexists. split; [py_run; reflexivity |]. cbn. repeat split; reflexivity.
  - py_run. reflexivity.
Qed.

(** X13.  [get_pub_str] answers the text of [<name>.pub].  When the file
    is missing it is first written from the master key; either way the
    file then holds the answer, and asking again gives the same answer
    and changes nothing. *)
Theorem get_pub_str_creates_once
    (self : MasterKeys.t) (name pki pem : string) (mk : privkey) (w : world) :
  MasterKeys.opts self !! "pki_dir"%string = Some (VStr pki) ->
  MasterKeys.rsa_path self = path_join pki "master.pem" ->
  w_fs w !! path_join pki "master.pem" = Some pem ->
  rsa_parse_key pem = Some mk ->
  let path := path_join pki (name +:+ ".pub") in
  exists s w',
    MasterKeysMethods.get_pub_str self name w = (Ret s, w')
    /\ w_fs w' !! path = Some s
    /\ MasterKeysMethods.get_pub_str self name w' = (Ret s, w')
    /\ match w_fs w !! path with
       | Some s0 => s = s0 /\ w' = w
       | None => s = rsa_pub_pem mk /\ w_fs w' = <[path := s]> (w_fs w)
       end.
Proof.
  intros Hpki Hrsa Hpem Hparse path.
  assert (Hagain : forall s w', w_fs w' !! path = Some s ->
            MasterKeysMethods.get_pub_str self name w' = (Ret s, w')).
  { intros s w' Hs. unfold MasterKeysMethods.get_pub_str. fold path. py_run.
    unfold path in Hs |- *. rewrite Hs. cbn. rewrite Hs. reflexivity. }
  destruct (w_fs w !! path) as [s0|] eqn:Hfile.
  - exists s0, w. split; [now apply Hagain |]. split; [exact Hfile |].
    split; [now apply Hagain |]. split; reflexivity.
  - set (w' := World (<[path := rsa_pub_pem mk]> (w_fs w)) (w_tape w) (w_pos w) (w_seed w)
                     (w_net w) (w_sent w) (w_slept w) (w_aes w)).
    assert (Hnew : w_fs w' !! path = Some (rsa_pub_pem mk)) by apply lookup_insert_eq.
    exists (rsa_pub_pem mk), w'.
    split; [| split; [exact Hnew | split; [now apply Hagain | split; reflexivity]]].
    unfold MasterKeysMethods.get_pub_str, MasterKeys.__get_keys, RSA_load_key.
    rewrite Hrsa. py_run. unfold path in Hfile. rewrite Hfile. cbn -[path_join].
    change ("master" +:+ ".pem")%string with "master.pem"%string.
    rewrite Hpem. cbn -[path_join]. rewrite Hpem, Hparse. cbn -[path_join].
    unfold set_fs. cbn -[path_join]. rewrite lookup_insert_eq. reflexivity.
Qed.

End KeyFiles.


(** X12 at the fixture: the signature file is there. *)
Lemma master_keys_signature_file_witness :
  let w := Fixture.world_of Fixture2.files_master_signed [] in
  exists obj,
    MasterKeys.__init__ (RP := Fixture.toy_rsa) Fixture2.master_opts_signed w = (Ret obj, w)
    /\ MasterKeysMethods.pubkey_signature obj = Some "SIGNATURE"%string
    /\ MasterKeys.sign_key obj = None
    /\ MasterKeys.key obj = "MASTER-KEY"%string.
Proof.
  cbv zeta.
  pose proof (master_keys_signature_file (RP := Fixture.toy_rsa) Fixture2.master_opts_signed
                (Fixture.world_of Fixture2.files_master_signed [])
                (Fixture.world_of Fixture2.files_master_signed [])
                Fixture.master_pki "master_pubkey_signature" "salty bacon"
                (VBool true) (VBool true) "MASTER-KEY"%string) as H.
  assert (E : w_fs (Fixture.world_of Fixture2.files_master_signed [])
              !! path_join Fixture.master_pki "master_pubkey_signature"
              = Some "SIGNATURE"%string) by (vm_compute; reflexivity).
  rewrite E in H. apply H; vm_compute; reflexivity.
Defined.

(** X13 at the fixture: [master.pub] is not there yet. *)
Lemma get_pub_str_creates_once_witness :
  let w := Fixture.world_of Fixture2.files_master_signed [] in
  exists s w',
    MasterKeysMethods.get_pub_str (RP := Fixture.toy_rsa) Fixture2.master_object "master" w
    = (Ret s, w')
    /\ w_fs w' !! path_join Fixture.master_pki "master.pub" = Some s
    /\ MasterKeysMethods.get_pub_str (RP := Fixture.toy_rsa) Fixture2.master_object "master" w'
       = (Ret s, w')
    /\ s = "MASTER-KEY.public"%string.
Proof.
  cbv zeta.
  destruct (get_pub_str_creates_once (RP := Fixture.toy_rsa) Fixture2.master_object "master"
              Fixture.master_pki "MASTER-KEY" "MASTER-KEY"%string
              (Fixture.world_of Fixture2.files_master_signed []))
    as (s & w' & Hrun & Hfile & Hagain & Hcase); try (vm_compute; reflexivity).
  exists s, w'. repeat split; try assumption.
  assert (E : w_fs (Fixture.world_of Fixture2.files_master_signed [])
              !! path_join Fixture.master_pki ("master" +:+ ".pub") = None)
    by (vm_compute; reflexivity).
  rewrite E in Hcase. apply Hcase.
Defined.

(** ** More on the handshake *)

(** As [py_run], with the methods of [Auth] and the file updates kept
    folded. *)
Ltac py_run_methods :=
  py_unfold;
  repeat (cbn -[path_join set_fs Auth.decrypt_aes Auth.get_keys Auth.verify_master
                 Auth.minion_sign_in_payload Auth.verify_pubkey_sig];
          try py_step);
  cbn -[path_join set_fs Auth.decrypt_aes Auth.get_keys Auth.verify_master
        Auth.minion_sign_in_payload Auth.verify_pubkey_sig].

Section HandshakeMore.
Context {RP : RsaPrims}.

(** Past the signature check, [decrypt_aes] is its last part. *)
Lemma decrypt_aes_accepted
    (self : Auth.t) (payload : pydict) (master_pub : bool) (w : world)
    (pki aes key_str sg : string) (key : privkey) :
  key_on_disk self w pki key ->
  payload !! "aes"%string = Some (VStr aes) ->
  rsa_private_decrypt key aes pkcs1_oaep_padding = Some key_str ->
  payload !! "sig"%string = Some (VStr sg) ->
  sig_accepted self w pki key_str sg ->
  Auth.decrypt_aes self payload master_pub w
  = Auth.decrypt_aes_result key key_str payload master_pub w.
Proof.
  intros Hkey Haes Hdec Hsig Hacc.
  pose proof (get_keys_on_disk _ _ _ _ Hkey) as Hget.
  destruct Hkey as (Hpki & _).
  unfold Auth.decrypt_aes. unfold bind at 1. rewrite Hget.
  unfold sig_accepted in Hacc. unfold Auth.pki_dir, RSA_load_pub_key.
  destruct (w_fs w !! path_join pki (Auth.mpub self)) as [txt|] eqn:Hfile.
  - destruct Hacc as (mkey & Hparse & Hrec).
    py_unfold. repeat (cbn -[path_join Auth.decrypt_aes_result]; try py_step).
    rewrite bool_decide_eq_true_2 by reflexivity. reflexivity.
  - py_unfold. repeat (cbn -[path_join Auth.decrypt_aes_result]; try py_step). reflexivity.
Qed.

(** X14.  A pinned master key file is there and the [sig] of the reply
    is not one the pinned key turns into the SHA-256 hex digest of the
    decrypted key string.  Then [decrypt_aes] never gives a key: it
    returns the pair of empty strings when the file cannot be read as a
    key and when [public_decrypt] gives another digest, and it raises
    the error of [public_decrypt] (the call is outside the [try]) when
    that fails on the signature.  Either way the world is unchanged,
    whatever [master_pub] is and whatever else the reply holds. *)
Theorem decrypt_aes_bad_signature
    (self : Auth.t) (payload : pydict) (master_pub : bool) (w : world)
    (pki aes key_str sg txt : string) (key : privkey) :
  key_on_disk self w pki key ->
  payload !! "aes"%string = Some (VStr aes) ->
  rsa_private_decrypt key aes pkcs1_oaep_padding = Some key_str ->
  payload !! "sig"%string = Some (VStr sg) ->
  w_fs w !! path_join pki (Auth.mpub self) = Some txt ->
  (forall mkey, rsa_parse_pub_key txt = Some mkey ->
                rsa_public_decrypt mkey sg 5 <> Some (sha256_hexdigest key_str)) ->
  Auth.decrypt_aes self payload master_pub w
  = (match rsa_parse_pub_key txt with
     | None => Ret [""%string; ""%string]
     | Some mkey =>
         match rsa_public_decrypt mkey sg 5 with
         | None => Raise RSAError
         | Some _ => Ret [""%string; ""%string]
         end
     end, w).
Proof.
  intros Hkey Haes Hdec Hsig Hfile Hbad.
  pose proof (get_keys_on_disk _ _ _ _ Hkey) as Hget.
  destruct Hkey as (Hpki & _).
  unfold Auth.decrypt_aes. unfold bind at 1. rewrite Hget.
  unfold Auth.pki_dir, RSA_load_pub_key.
  destruct (rsa_parse_pub_key txt) as [mkey|] eqn:Hparse.
  - specialize (Hbad mkey eq_refl).
    destruct (rsa_public_decrypt mkey sg 5) as [d|] eqn:Hd.
    + py_unfold. repeat (cbn -[path_join Auth.decrypt_aes_result]; try py_step).
      rewrite bool_decide_eq_false_2 by congruence. reflexivity.
    + py_unfold. repeat (cbn -[path_join Auth.decrypt_aes_result]; try py_step).
      reflexivity.
  - py_unfold. repeat (cbn -[path_join Auth.decrypt_aes_result]; try py_step). reflexivity.
Qed.

(** X15.  With an accepted signature and no separator in the key
    string, a reply that carries a [token] gets it decrypted:
    [decrypt_aes] returns the key string and the clear token, for either
    value of [master_pub]. *)
Theorem decrypt_aes_token
    (self : Auth.t) (payload : pydict) (master_pub : bool) (w : world)
    (pki aes key_str sg tok clear : string) (key : privkey) :
  key_on_disk self w pki key ->
  payload !! "aes"%string = Some (VStr aes) ->
  rsa_private_decrypt key aes pkcs1_oaep_padding = Some key_str ->
  payload !! "sig"%string = Some (VStr sg) ->
  sig_accepted self w pki key_str sg ->
  str_contains "_|-" key_str = false ->
  payload !! "token"%string = Some (VStr tok) ->
  rsa_private_decrypt key tok pkcs1_oaep_padding = Some clear ->
  Auth.decrypt_aes self payload master_pub w = (Ret [key_str; clear], w).
Proof.
  intros Hkey Haes Hdec Hsig Hacc Hsep Htok Hclear.
  rewrite (decrypt_aes_accepted self payload master_pub w pki aes key_str sg key) by assumption.
  unfold Auth.decrypt_aes_result. py_run. reflexivity.
Qed.

(** X16.  Called for a master it knows ([master_pub = True], the
    default) on a reply without [token], [decrypt_aes] never returns the
    key string as it is, even when the signature is right: the result is
    the pair of empty strings, or, when the key string contains the
    separator, the pieces [key_str.split('_|-')]. *)
Theorem decrypt_aes_known_master_needs_token
    (self : Auth.t) (payload : pydict) (w : world)
    (pki aes key_str sg : string) (key : privkey) :
  key_on_disk self w pki key ->
  payload !! "aes"%string = Some (VStr aes) ->
  rsa_private_decrypt key aes pkcs1_oaep_padding = Some key_str ->
  payload !! "sig"%string = Some (VStr sg) ->
  sig_accepted self w pki key_str sg ->
  payload !! "token"%string = None ->
  Auth.decrypt_aes self payload true w
  = (Ret (if str_contains "_|-" key_str then str_split "_|-" key_str
          else [""%string; ""%string]), w).
Proof.
  intros Hkey Haes Hdec Hsig Hacc Htok.
  rewrite (decrypt_aes_accepted self payload true w pki aes key_str sg key) by assumption.
  unfold Auth.decrypt_aes_result.
  destruct (str_contains "_|-" key_str); py_run; reflexivity.
Qed.


(** X18.  First contact (no pinned key file, or [open_mode]) with
    [verify_master_pubkey_sign] off: the received [pub_key] is written to
    the pinned key file before anything is checked.  A reply without
    [sig] is then refused with the empty string, and the key it brought
    stays pinned. *)
Theorem verify_master_pins_before_checking
    (self : Auth.t) (payload : pydict) (w : world)
    (pki pk aes key_str : string) (vs : pyval) (key : privkey) :
  let m_pub_fn := path_join pki (Auth.mpub self) in
  let w1 := set_fs (insert m_pub_fn pk) (set_fs (insert m_pub_fn ""%string) w) in
  Auth.opts self !! "pki_dir"%string = Some (VStr pki) ->
  (w_fs w !! m_pub_fn = None
   \/ exists om, Auth.opts self !! "open_mode"%string = Some om /\ truthy om = true) ->
  Auth.opts self !! "verify_master_pubkey_sign"%string = Some vs -> truthy vs = false ->
  payload !! "pub_key"%string = Some (VStr pk) ->
  key_on_disk self w1 pki key ->
  payload !! "aes"%string = Some (VStr aes) ->
  rsa_private_decrypt key aes pkcs1_oaep_padding = Some key_str ->
  payload !! "sig"%string = None ->
  Auth.verify_master self payload w = (Ret (VStr ""), w1)
  /\ w_fs w1 !! m_pub_fn = Some pk.
Proof.
  intros m_pub_fn w1; subst w1 m_pub_fn.
  intros Hpki Hfirst Hvs Hvsf Hpk Hkey Haes Hdec Hsig.
  split; [| apply lookup_insert_eq].
  set (w1 := set_fs _ (set_fs _ w)) in *.
  assert (Hda : Auth.decrypt_aes self payload false w1 = (Ret [""%string; ""%string], w1)).
  { pose proof (get_keys_on_disk _ _ _ _ Hkey) as Hget.
    unfold Auth.decrypt_aes. unfold bind at 1. rewrite Hget. py_run. reflexivity. }
  unfold Auth.verify_master, Auth.pin_and_decrypt, Auth.pki_dir.
  destruct Hfirst as [Hnone | (om & Hom & Homt)].
  - subst w1. py_run_methods. reflexivity.
  - subst w1.
    destruct (w_fs w !! path_join pki (Auth.mpub self)) as [old|] eqn:Hold;
      py_run_methods; reflexivity.
Qed.

(** X19.  First contact with a signed reply: the signature is checked
    against the key the reply itself brought, which has just been
    pinned.  When that key turns [sig] into the digest of the key string
    (no separator, no [token]), [verify_master] returns the key string. *)
Theorem verify_master_first_contact
    (self : Auth.t) (payload : pydict) (w : world)
    (pki pk aes key_str sg : string) (vs : pyval) (key : privkey) (mkey : pubkey) :
  let m_pub_fn := path_join pki (Auth.mpub self) in
  let w1 := set_fs (insert m_pub_fn pk) (set_fs (insert m_pub_fn ""%string) w) in
  Auth.opts self !! "pki_dir"%string = Some (VStr pki) ->
  w_fs w !! m_pub_fn = None ->
  Auth.opts self !! "verify_master_pubkey_sign"%string = Some vs -> truthy vs = false ->
  payload !! "pub_key"%string = Some (VStr pk) ->
  key_on_disk self w1 pki key ->
  payload !! "aes"%string = Some (VStr aes) ->
  rsa_private_decrypt key aes pkcs1_oaep_padding = Some key_str ->
  payload !! "sig"%string = Some (VStr sg) ->
  rsa_parse_pub_key pk = Some mkey ->
  rsa_public_decrypt mkey sg 5 = Some (sha256_hexdigest key_str) ->
  str_contains "_|-" key_str = false ->
  payload !! "token"%string = None ->
  Auth.verify_master self payload w = (Ret (VStr key_str), w1)
  /\ w_fs w1 !! m_pub_fn = Some pk.
Proof.
  intros m_pub_fn w1; subst w1 m_pub_fn.
  intros Hpki Hnone Hvs Hvsf Hpk Hkey Haes Hdec Hsig Hparse Hrec Hsep Htok.
  set (w1 := set_fs _ (set_fs _ w)) in *.
  assert (Hpin : w_fs w1 !! path_join pki (Auth.mpub self) = Some pk)
    by apply lookup_insert_eq.
  split; [| exact Hpin].
  assert (Hda : Auth.decrypt_aes self payload false w1 = (Ret [key_str; ""%string], w1)).
  { rewrite (decrypt_aes_accepted self payload false w1 pki aes key_str sg key);
      try assumption.
    - unfold Auth.decrypt_aes_result. py_run. reflexivity.
    - unfold sig_accepted. rewrite Hpin. eauto. }
  unfold Auth.verify_master, Auth.pin_and_decrypt, Auth.pki_dir.
  subst w1. py_run_methods. reflexivity.
Qed.

(** X20.  A pinned master whose key has not changed, signing agreed on
    both sides and [always_verify_signature] off: [verify_master] is
    decided by [decrypt_aes(payload)].  It returns the aes part when the
    token that comes back is the minion's own, and the empty string when
    the token differs, when the result is not a pair, or when
    [decrypt_aes] raises. *)
Theorem verify_master_token_echo
    (self : Auth.t) (payload : pydict) (w : world)
    (pki pinned : string) (om vs av ps : pyval) :
  Auth.opts self !! "pki_dir"%string = Some (VStr pki) ->
  w_fs w !! path_join pki (Auth.mpub self) = Some pinned ->
  Auth.opts self !! "open_mode"%string = Some om -> truthy om = false ->
  Auth.opts self !! "verify_master_pubkey_sign"%string = Some vs -> truthy vs = true ->
  Auth.opts self !! "always_verify_signature"%string = Some av -> truthy av = false ->
  payload !! "pub_key"%string = Some (VStr pinned) ->
  payload !! "pub_sig"%string = Some ps ->
  Auth.verify_master self payload w
  = match Auth.decrypt_aes self payload true w with
    | (Ret [aes; token], w') =>
        (Ret (VStr (if bool_decide (token = Auth.token self) then aes else ""%string)), w')
    | (Ret _, w') => (Ret (VStr ""), w')
    | (Raise _, w') => (Ret (VStr ""), w')
    | (Exit c, w') => (Exit c, w')
    | (OutOfFuel, w') => (OutOfFuel, w')
    end.
Proof.
  intros Hpki Hfile Hom Homf Hvs Hvst Hav Havf Hpk Hps.
  unfold Auth.verify_master, Auth.verify_pinned_key, Auth.pki_dir.
  py_run_methods. rewrite bool_decide_eq_true_2 by reflexivity.
  py_run_methods.
  destruct (Auth.decrypt_aes self payload true w) as [[l|e|c|] w']; try reflexivity.
  destruct l as [|aes [|token [|x l]]]; cbn; try reflexivity.
  destruct (bool_decide (token = Auth.token self)); reflexivity.
Qed.

(** X21.  Verification on, but no [master_sign_key_name] configured: on
    first contact a reply with [pub_key] and [pub_sig] is not accepted
    ([verify_master] ends without a value) and no key is pinned. *)
Theorem verify_master_without_sign_key_name
    (self : Auth.t) (payload : pydict) (w : world)
    (pki : string) (vs name pk ps : pyval) :
  Auth.opts self !! "pki_dir"%string = Some (VStr pki) ->
  w_fs w !! path_join pki (Auth.mpub self) = None ->
  Auth.opts self !! "verify_master_pubkey_sign"%string = Some vs -> truthy vs = true ->
  Auth.opts self !! "master_sign_key_name"%string = Some name -> truthy name = false ->
  payload !! "pub_key"%string = Some pk ->
  payload !! "pub_sig"%string = Some ps ->
  Auth.verify_master self payload w = (Ret VNone, w).
Proof.
  intros Hpki Hnone Hvs Hvst Hname Hnamef Hpk Hps.
  unfold Auth.verify_master, Auth.verify_payload_sig, Auth.verify_pubkey_sig, Auth.pki_dir.
  py_run. reflexivity.
Qed.

End HandshakeMore.

(** The minion's key at the fixture. *)
Lemma fixture_key_on_disk (opts : pydict) (tok : string) (fs : gmap string string)
    (net : list (option pydict)) :
  opts !! "pki_dir"%string = Some (VStr Fixture.pki) ->
  fs !! path_join Fixture.pki "minion.pem" = Some "MINION-KEY"%string ->
  key_on_disk (RP := Fixture.toy_rsa)
    (Auth.Build opts tok (path_join Fixture.pki "minion.pub")
       (path_join Fixture.pki "minion.pem") "minion_master.pub")
    (Fixture.world_of fs net) Fixture.pki "MINION-KEY"%string.
Proof.
  intros Hpki Hpem. split; [exact Hpki |]. split; [reflexivity |].
  exists "MINION-KEY"%string. split; [exact Hpem | reflexivity].
Qed.

(** X14 at the fixture: the pinned key makes ["forged"] of the
    signature, not the session key's digest. *)
Lemma decrypt_aes_bad_signature_witness :
  let w := Fixture.world_of Fixture.files_pinned [] in
  let payload := <["sig" := VStr "forged"]> (Fixture.reply_plain "MASTER-KEY.public") in
  Auth.decrypt_aes (RP := Fixture.toy_rsa) Fixture.minion payload false w
  = (Ret [""%string; ""%string], w).
Proof.
  cbv zeta.
  apply (decrypt_aes_bad_signature (RP := Fixture.toy_rsa) Fixture.minion _ false
           (Fixture.world_of Fixture.files_pinned [])
           Fixture.pki "SESSION-KEY" "SESSION-KEY" "forged" "MASTER-KEY.public"
           "MINION-KEY"%string).
  - apply fixture_key_on_disk; vm_compute; reflexivity.
  - vm_compute; reflexivity.
  - vm_compute; reflexivity.
  - vm_compute; reflexivity.
  - vm_compute; reflexivity.
  - intros mkey _. vm_compute. discriminate.
Defined.

(** X15 at the fixture. *)
Lemma decrypt_aes_token_witness :
  let w := Fixture.world_of Fixture.files_pinned [] in
  let payload := <["token" := VStr "TOKEN"]>
                 (<["sig" := VStr "SESSION-KEY"]> (Fixture.reply_plain "MASTER-KEY.public")) in
  Auth.decrypt_aes (RP := Fixture.toy_rsa) Fixture.minion payload true w
  = (Ret ["SESSION-KEY"%string; "TOKEN"%string], w).
Proof.
  cbv zeta.
  apply (decrypt_aes_token (RP := Fixture.toy_rsa) Fixture.minion _ true
           (Fixture.world_of Fixture.files_pinned [])
           Fixture.pki "SESSION-KEY" "SESSION-KEY" "SESSION-KEY" "TOKEN" "TOKEN"
           "MINION-KEY"%string).
  - apply fixture_key_on_disk; vm_compute; reflexivity.
  - vm_compute; reflexivity.
  - vm_compute; reflexivity.
  - vm_compute; reflexivity.
  - vm_compute. eexists. split; reflexivity.
  - vm_compute; reflexivity.
  - vm_compute; reflexivity.
  - vm_compute; reflexivity.
Defined.

(** X16 at the fixture. *)
Lemma decrypt_aes_known_master_needs_token_witness :
  let w := Fixture.world_of Fixture.files_pinned [] in
  let payload := <["sig" := VStr "SESSION-KEY"]> (Fixture.reply_plain "MASTER-KEY.public") in
  Auth.decrypt_aes (RP := Fixture.toy_rsa) Fixture.minion payload true w
  = (Ret [""%string; ""%string], w).
Proof.
  cbv zeta.
  apply (decrypt_aes_known_master_needs_token (RP := Fixture.toy_rsa) Fixture.minion _
           (Fixture.world_of Fixture.files_pinned [])
           Fixture.pki "SESSION-KEY" "SESSION-KEY" "SESSION-KEY" "MINION-KEY"%string).
  - apply fixture_key_on_disk; vm_compute; reflexivity.
  - vm_compute; reflexivity.
  - vm_compute; reflexivity.
  - vm_compute; reflexivity.
  - vm_compute. eexists. split; reflexivity.
  - vm_compute; reflexivity.
Defined.


(** X18 at the fixture. *)
Lemma verify_master_pins_before_checking_witness :
  let w := Fixture.world_of Fixture.files_first_contact [] in
  let p := path_join Fixture.pki "minion_master.pub" in
  let w1 := set_fs (insert p "MASTER-KEY.public"%string) (set_fs (insert p ""%string) w) in
  Auth.verify_master (RP := Fixture.toy_rsa) Fixture.minion
    (Fixture.reply_plain "MASTER-KEY.public") w = (Ret (VStr ""), w1)
  /\ w_fs w1 !! p = Some "MASTER-KEY.public"%string.
Proof.
  cbv zeta.
  apply (verify_master_pins_before_checking (RP := Fixture.toy_rsa) Fixture.minion
           (Fixture.reply_plain "MASTER-KEY.public")
           (Fixture.world_of Fixture.files_first_contact [])
           Fixture.pki "MASTER-KEY.public" "SESSION-KEY" "SESSION-KEY" (VBool false)
           "MINION-KEY"%string).
  - vm_compute; reflexivity.
  - left. vm_compute; reflexivity.
  - vm_compute; reflexivity.
  - vm_compute; reflexivity.
  - vm_compute; reflexivity.
  - split; [vm_compute; reflexivity |]. split; [reflexivity |].
    exists "MINION-KEY"%string. split; vm_compute; reflexivity.
  - vm_compute; reflexivity.
  - vm_compute; reflexivity.
  - vm_compute; reflexivity.
Defined.

(** X19 at the fixture. *)
Lemma verify_master_first_contact_witness :
  let w := Fixture.world_of Fixture.files_first_contact [] in
  let p := path_join Fixture.pki "minion_master.pub" in
  let w1 := set_fs (insert p "MASTER-KEY.public"%string) (set_fs (insert p ""%string) w) in
  let payload := <["sig" := VStr "SESSION-KEY"]> (Fixture.reply_plain "MASTER-KEY.public") in
  Auth.verify_master (RP := Fixture.toy_rsa) Fixture.minion payload w
  = (Ret (VStr "SESSION-KEY"), w1)
  /\ w_fs w1 !! p = Some "MASTER-KEY.public"%string.
Proof.
  cbv zeta.
  apply (verify_master_first_contact (RP := Fixture.toy_rsa) Fixture.minion _
           (Fixture.world_of Fixture.files_first_contact [])
           Fixture.pki "MASTER-KEY.public" "SESSION-KEY" "SESSION-KEY" "SESSION-KEY"
           (VBool false) "MINION-KEY"%string "MASTER-KEY.public"%string).
  - vm_compute; reflexivity.
  - vm_compute; reflexivity.
  - vm_compute; reflexivity.
  - vm_compute; reflexivity.
  - vm_compute; reflexivity.
  - split; [vm_compute; reflexivity |]. split; [reflexivity |].
    exists "MINION-KEY"%string. split; vm_compute; reflexivity.
  - vm_compute; reflexivity.
  - vm_compute; reflexivity.
  - vm_compute; reflexivity.
  - vm_compute; reflexivity.
  - vm_compute; reflexivity.
  - vm_compute; reflexivity.
  - vm_compute; reflexivity.
Defined.

(** X20 at the fixture: the reply echoes the minion's token. *)
Lemma verify_master_token_echo_witness :
  let w := Fixture.world_of Fixture.files_pinned [] in
  let payload := <["pub_sig" := VStr "c2lnbmVk"]>
                 (<["token" := VStr "TOKEN"]>
                 (<["sig" := VStr "SESSION-KEY"]> (Fixture.reply_plain "MASTER-KEY.public"))) in
  Auth.verify_master (RP := Fixture.toy_rsa) Fixture2.minion_verifying payload w
  = (Ret (VStr "SESSION-KEY"), w).
Proof.
  cbv zeta.
  etransitivity.
  - apply (verify_master_token_echo (RP := Fixture.toy_rsa) Fixture2.minion_verifying _
             (Fixture.world_of Fixture.files_pinned [])
             Fixture.pki "MASTER-KEY.public" (VBool false) (VBool true) (VBool false)
             (VStr "c2lnbmVk"));
      vm_compute; reflexivity.
  - vm_compute; reflexivity.
Defined.

(** X21 at the fixture. *)
Lemma verify_master_without_sign_key_name_witness :
  let w := Fixture.world_of Fixture.files_first_contact [] in
  let payload := <["pub_sig" := VStr "c2lnbmVk"]> (Fixture.reply_plain "MASTER-KEY.public") in
  Auth.verify_master (RP := Fixture.toy_rsa) Fixture2.minion_unnamed payload w
  = (Ret VNone, w).
Proof.
  cbv zeta.
  apply (verify_master_without_sign_key_name (RP := Fixture.toy_rsa) Fixture2.minion_unnamed _
           (Fixture.world_of Fixture.files_first_contact [])
           Fixture.pki (VBool true) (VStr "") (VStr "MASTER-KEY.public") (VStr "c2lnbmVk"));
    vm_compute; reflexivity.
Defined.

(** ** More on signing in *)

Section SignInMore.
Context {RP : RsaPrims}.

(** X22.  Without a master key the minion can read (no pinned file, or
    one that is no key), the sign-in payload is exactly
    [{'enc': 'clear', 'load': {'cmd': '_auth', 'id': id, 'pub': text}}]
    with the text of the minion's public key file: the failure to load
    the master key is swallowed, no [token] goes out and nothing
    changes. *)
Theorem sign_in_payload_without_master_key
    (self : Auth.t) (w : world) (pki pub_txt : string) (id : pyval) :
  Auth.opts self !! "id"%string = Some id ->
  Auth.opts self !! "pki_dir"%string = Some (VStr pki) ->
  match w_fs w !! path_join pki (Auth.mpub self) with
  | None => True
  | Some txt => rsa_parse_pub_key txt = None
  end ->
  w_fs w !! Auth.pub_path self = Some pub_txt ->
  Auth.minion_sign_in_payload self w
  = (Ret (<["load" := VDict (<["pub" := VStr pub_txt]>
                             (<["id" := id]> (<["cmd" := VStr "_auth"]> ∅)))]>
          (<["enc" := VStr "clear"]> ∅)), w).
Proof.
  intros Hid Hpki Hmaster Hpub.
  unfold Auth.minion_sign_in_payload, Auth.pki_dir, RSA_load_pub_key.
  destruct (w_fs w !! path_join pki (Auth.mpub self)) as [txt|] eqn:Hfile;
    py_run; reflexivity.
Qed.

(** Up to the reply: what [sign_in] does before it looks at it. *)
Ltac sign_in_send Hpki Huri Hreq :=
  unfold Auth.sign_in, Auth.pki_dir;
  unfold bind at 1; unfold bind at 1; unfold getitem at 1; rewrite Hpki;
  cbn [from_option as_str ret];
  unfold bind at 1; unfold getitem at 1; rewrite Huri; cbn [from_option ret];
  unfold bind at 1; unfold try_except; unfold bind at 1; rewrite Hreq;
  unfold bind at 1; unfold Auth.send_auto.

(** X23.  No reply (the request times out): in safe mode [sign_in]
    returns ['retry'], otherwise it raises [SaltClientError]; the request
    has gone out either way. *)
Theorem sign_in_timeout
    (self : Auth.t) (timeout safe tries : pyval) (w w1 : world)
    (pki : string) (uri : pyval) (request : pydict) :
  Auth.opts self !! "pki_dir"%string = Some (VStr pki) ->
  Auth.opts self !! "master_uri"%string = Some uri ->
  Auth.minion_sign_in_payload self w = (Ret request, w1) ->
  (forall reply rest, w_net w1 <> Some reply :: rest) ->
  Auth.sign_in self timeout safe tries w
  = ((if truthy safe then Ret (VStr "retry") else Raise SaltClientError),
     after_send w1 request).
Proof.
  intros Hpki Huri Hreq Hnet.
  sign_in_send Hpki Huri Hreq. unfold after_send.
  destruct (w_net w1) as [|[reply|] rest] eqn:Hn;
    [| exfalso; eapply Hnet; reflexivity |];
    destruct (truthy safe); reflexivity.
Qed.

(** X24.  A reply whose [load.ret] is false (the master rejected the
    key): with [rejected_retry] set [sign_in] returns ['retry'],
    otherwise the process exits with status 0.  The reply's key is not
    looked at: the files are as they were when the request went out. *)
Theorem sign_in_rejected
    (self : Auth.t) (timeout safe tries : pyval) (w w1 : world)
    (pki : string) (uri v rr : pyval) (request reply load : pydict)
    (rest : list (option pydict)) :
  Auth.opts self !! "pki_dir"%string = Some (VStr pki) ->
  Auth.opts self !! "master_uri"%string = Some uri ->
  Auth.minion_sign_in_payload self w = (Ret request, w1) ->
  w_net w1 = Some reply :: rest ->
  reply !! "load"%string = Some (VDict load) ->
  load !! "ret"%string = Some v -> truthy v = false ->
  Auth.opts self !! "rejected_retry"%string = Some rr ->
  Auth.sign_in self timeout safe tries w
  = ((if truthy rr then Ret (VStr "retry") else Exit 0), after_send w1 request).
Proof.
  intros Hpki Huri Hreq Hnet Hload Hret Hv Hrr.
  sign_in_send Hpki Huri Hreq. rewrite Hnet. cbn.
  unfold bind at 1. unfold Auth.load_ret. rewrite Hload, Hret. cbn. rewrite Hv. cbn.
  unfold bind, getitem. rewrite Hrr. cbn. unfold after_send. rewrite Hnet.
  destruct (truthy rr); reflexivity.
Qed.

(** X25.  A reply without [load] goes to [verify_master]; when that
    gives nothing true (the empty string, or no value at all),
    [sign_in] ends the process with status 42. *)
Theorem sign_in_unverified_exits
    (self : Auth.t) (timeout safe tries : pyval) (w w1 w2 : world)
    (pki : string) (uri aes : pyval) (request reply : pydict)
    (rest : list (option pydict)) :
  Auth.opts self !! "pki_dir"%string = Some (VStr pki) ->
  Auth.opts self !! "master_uri"%string = Some uri ->
  Auth.minion_sign_in_payload self w = (Ret request, w1) ->
  w_net w1 = Some reply :: rest ->
  reply !! "load"%string = None ->
  Auth.verify_master self reply (after_send w1 request) = (Ret aes, w2) ->
  truthy aes = false ->
  Auth.sign_in self timeout safe tries w = (Exit 42, w2).
Proof.
  intros Hpki Huri Hreq Hnet Hload Hvm Haes.
  sign_in_send Hpki Huri Hreq. rewrite Hnet. cbn -[Auth.verify_master].
  unfold bind at 1. unfold Auth.load_ret. rewrite Hload. cbn -[Auth.verify_master].
  unfold bind at 1. unfold after_send in Hvm. rewrite Hnet in Hvm. cbn [tail] in Hvm.
  rewrite Hvm. rewrite Haes. reflexivity.
Qed.

(** X26.  A reply without [load] whose key [verify_master] accepts, on
    a minion with no fingerprint configured: [sign_in] returns the dict
    of the aes key and the reply's [publish_port]. *)
Theorem sign_in_accepts
    (self : Auth.t) (timeout safe tries : pyval) (w w1 w2 : world)
    (pki : string) (uri aes port : pyval) (request reply : pydict)
    (rest : list (option pydict)) :
  Auth.opts self !! "pki_dir"%string = Some (VStr pki) ->
  Auth.opts self !! "master_uri"%string = Some uri ->
  Auth.minion_sign_in_payload self w = (Ret request, w1) ->
  w_net w1 = Some reply :: rest ->
  reply !! "load"%string = None ->
  Auth.verify_master self reply (after_send w1 request) = (Ret aes, w2) ->
  truthy aes = true ->
  Auth.opts self !! "syndic_master"%string = None ->
  Auth.opts self !! "master_finger"%string = None ->
  reply !! "publish_port"%string = Some port ->
  Auth.sign_in self timeout safe tries w
  = (Ret (VDict (<["publish_port" := port]> (<["aes" := aes]> ∅))), w2).
Proof.
  intros Hpki Huri Hreq Hnet Hload Hvm Haes Hsyn Hfin Hport.
  sign_in_send Hpki Huri Hreq. rewrite Hnet. cbn -[Auth.verify_master].
  unfold bind at 1. unfold Auth.load_ret. rewrite Hload. cbn -[Auth.verify_master].
  unfold bind at 1. unfold after_send in Hvm. rewrite Hnet in Hvm. cbn [tail] in Hvm.
  rewrite Hvm. rewrite Haes. cbn [negb]. unfold dict_get. rewrite Hsyn, Hfin.
  cbn. unfold bind, getitem. rewrite Hport. reflexivity.
Qed.

(** X27.  A configured [master_finger] that is not the fingerprint of
    the pinned master key file ends the process with status 42, even
    though [verify_master] accepted the reply. *)
Theorem sign_in_finger_mismatch
    (self : Auth.t) (timeout safe tries : pyval) (w w1 w2 : world)
    (pki finger : string) (uri aes : pyval) (request reply : pydict)
    (rest : list (option pydict)) :
  Auth.opts self !! "pki_dir"%string = Some (VStr pki) ->
  Auth.opts self !! "master_uri"%string = Some uri ->
  Auth.minion_sign_in_payload self w = (Ret request, w1) ->
  w_net w1 = Some reply :: rest ->
  reply !! "load"%string = None ->
  Auth.verify_master self reply (after_send w1 request) = (Ret aes, w2) ->
  truthy aes = true ->
  Auth.opts self !! "syndic_master"%string = None ->
  Auth.opts self !! "master_finger"%string = Some (VStr finger) ->
  finger <> ""%string ->
  pem_finger_of (w_fs w2) (path_join pki (Auth.mpub self)) <> finger ->
  Auth.sign_in self timeout safe tries w = (Exit 42, w2).
Proof.
  intros Hpki Huri Hreq Hnet Hload Hvm Haes Hsyn Hfin Hne Hdiff.
  sign_in_send Hpki Huri Hreq. rewrite Hnet. cbn -[Auth.verify_master].
  unfold bind at 1. unfold Auth.load_ret. rewrite Hload. cbn -[Auth.verify_master].
  unfold bind at 1. unfold after_send in Hvm. rewrite Hnet in Hvm. cbn [tail] in Hvm.
  rewrite Hvm. rewrite Haes. cbn [negb]. unfold dict_get. rewrite Hsyn, Hfin.
  cbn -[path_join]. rewrite bool_decide_eq_false_2 by assumption. cbn -[path_join].
  unfold bind, getitem, pem_finger, Auth._finger_fail, bind, pem_finger. rewrite Hfin.
  cbn -[path_join].
  rewrite bool_decide_eq_false_2 by congruence. reflexivity.
Qed.

End SignInMore.

(** ** More on the session driver *)

Section DriverMore.
Context {RP : RsaPrims} {CP : CipherPrims}.

(** X28.  In caller mode ([opts['caller']] true) a sign-in that is to
    be retried ends the process with status 2 instead: no wait, no
    second attempt. *)
Theorem authenticate_caller_exits
    (fuel : nat) (self : Auth.t) (w w1 : world) (wait wait_max : Z) :
  Auth.opts self !! "acceptance_wait_time"%string = Some (VInt wait) ->
  Auth.opts self !! "acceptance_wait_time_max"%string = Some (VInt wait_max) ->
  driver_sign_in self w = (Ret (VStr "retry"), w1) ->
  truthy (dict_get (Auth.opts self) "caller" VNone) = true ->
  SAuth.__authenticate (S fuel) self w = (Exit 2, w1).
Proof.
  intros Hw Hm Hretry Hcaller.
  unfold SAuth.__authenticate, getitem, bind, from_option. rewrite Hw, Hm.
  cbn [as_int ret SAuth.authenticate_loop].
  unfold bind at 1. fold (driver_sign_in self). rewrite Hretry. cbn [eq_str].
  rewrite bool_decide_eq_true_2 by reflexivity. rewrite Hcaller. reflexivity.
Qed.

Lemma next_wait_zero (wait_max : Z) : SAuth.next_wait 0 wait_max = 0.
Proof. unfold SAuth.next_wait. destruct (0 <? wait_max); reflexivity. Qed.

(** With a wait time that [next_wait] leaves alone, the loop sleeps
    that time at every retry, or never when it is 0. *)
Lemma authenticate_loop_constant (fuel : nat) (self : Auth.t) (wait wait_max : Z) :
  SAuth.next_wait wait wait_max = wait ->
  forall w : world,
  exists n : nat,
    w_slept (snd (SAuth.authenticate_loop fuel self wait wait_max w))
    = w_slept w ++ replicate n wait
    /\ (wait = 0 -> n = 0%nat).
Proof.
  intros Hstable. induction fuel as [|fuel IH]; intros w.
  - exists 0%nat. cbn. rewrite app_nil_r. split; reflexivity.
  - cbn [SAuth.authenticate_loop]. unfold bind at 1. fold (driver_sign_in self).
    pose proof (keeps_sign_in self
                  (dict_get (Auth.opts self) "auth_timeout" (VInt 60))
                  (dict_get (Auth.opts self) "auth_safemode"
                     (dict_get (Auth.opts self) "_safe_auth" (VBool true)))
                  (dict_get (Auth.opts self) "auth_tries" (VInt 1)) w) as Hkeep.
    fold (driver_sign_in self) in Hkeep.
    destruct (driver_sign_in self w) as [[creds|e|c|] w1]; cbn [snd] in Hkeep;
      try (exists 0%nat; cbn; rewrite app_nil_r; split; [assumption | reflexivity]).
    destruct (eq_str creds "retry").
    + destruct (truthy (dict_get (Auth.opts self) "caller" VNone)).
      * exists 0%nat. cbn. rewrite app_nil_r. split; [assumption | reflexivity].
      * unfold bind at 1. rewrite Hstable.
        destruct (wait =? 0) eqn:Ez; cbn [negb].
        -- cbn. destruct (IH w1) as (n & Hn & Hz).
           exists n. rewrite Hn, Hkeep. split; [reflexivity | exact Hz].
        -- cbn.
           destruct (IH (World (w_fs w1) (w_tape w1) (w_pos w1) (w_seed w1) (w_net w1)
                               (w_sent w1) (w_slept w1 ++ [wait]) (w_aes w1)))
             as (n & Hn & Hz).
           exists (S n). rewrite Hn. cbn [w_slept replicate]. rewrite Hkeep.
           rewrite <- app_assoc. split; [reflexivity |].
           intros ->. discriminate.
    + exists 0%nat. cbn [replicate]. rewrite app_nil_r. split; [| reflexivity].
      rewrite keeps_make_crypticle. assumption.
Qed.

(** X29.  With [acceptance_wait_time] 0 the loop never sleeps: every
    retry follows the failed attempt at once, however many there are. *)
Theorem authenticate_zero_wait_never_sleeps
    (fuel : nat) (self : Auth.t) (wait_max : Z) (w : world) :
  w_slept (snd (SAuth.authenticate_loop fuel self 0 wait_max w)) = w_slept w.
Proof.
  destruct (authenticate_loop_constant fuel self 0 wait_max (next_wait_zero wait_max) w)
    as (n & Hn & Hz).
  rewrite Hn, (Hz eq_refl). apply app_nil_r.
Qed.

(** X30.  When [acceptance_wait_time_max] is 0 (then it is taken to be
    the wait time itself) or not above [acceptance_wait_time], the wait
    never grows: [__authenticate] sleeps the configured
    [acceptance_wait_time] at every retry. *)
Theorem authenticate_constant_wait
    (fuel : nat) (self : Auth.t) (w : world) (wait wait_max : Z) :
  Auth.opts self !! "acceptance_wait_time"%string = Some (VInt wait) ->
  Auth.opts self !! "acceptance_wait_time_max"%string = Some (VInt wait_max) ->
  wait_max <= wait ->
  exists n : nat,
    w_slept (snd (SAuth.__authenticate fuel self w)) = w_slept w ++ replicate n wait.
Proof.
  intros Hw Hm Hle. unfold SAuth.__authenticate, getitem, bind, from_option.
  rewrite Hw, Hm. cbn [as_int ret].
  destruct (authenticate_loop_constant fuel self wait
              (if wait_max =? 0 then wait else wait_max)) with (w := w) as (n & Hn & _).
  - apply next_wait_stable. destruct (wait_max =? 0); lia.
  - exists n. exact Hn.
Qed.

End DriverMore.

(** X22 at the fixture. *)
Lemma sign_in_payload_without_master_key_witness :
  let w := Fixture.world_of Fixture.files_first_contact [] in
  Auth.minion_sign_in_payload (RP := Fixture.toy_rsa) Fixture.minion w
  = (Ret Fixture2.first_request, w).
Proof.
  cbv zeta.
  apply (sign_in_payload_without_master_key (RP := Fixture.toy_rsa) Fixture.minion
           (Fixture.world_of Fixture.files_first_contact [])
           Fixture.pki "MINION-KEY.public" (VStr "minion-1")).
  - vm_compute; reflexivity.
  - vm_compute; reflexivity.
  - vm_compute. exact I.
  - vm_compute; reflexivity.
Defined.

(** X23 at the fixture: nobody answers, safe mode. *)
Lemma sign_in_timeout_witness :
  let w := Fixture.world_of Fixture.files_first_contact [] in
  Auth.sign_in (RP := Fixture.toy_rsa) Fixture.minion (VInt 60) (VBool true) (VInt 1) w
  = (Ret (VStr "retry"), after_send w Fixture2.first_request).
Proof.
  cbv zeta.
  apply (sign_in_timeout (RP := Fixture.toy_rsa) Fixture.minion (VInt 60) (VBool true) (VInt 1)
           (Fixture.world_of Fixture.files_first_contact [])
           (Fixture.world_of Fixture.files_first_contact [])
           Fixture.pki (VStr "tcp://10.0.0.1:4506") Fixture2.first_request).
  - vm_compute; reflexivity.
  - vm_compute; reflexivity.
  - vm_compute; reflexivity.
  - intros reply rest H. discriminate H.
Defined.

(** X24 at the fixture: [rejected_retry] is set. *)
Lemma sign_in_rejected_witness :
  let w := Fixture.world_of Fixture.files_first_contact [Some Fixture2.reply_rejected] in
  Auth.sign_in (RP := Fixture.toy_rsa) Fixture.minion (VInt 60) (VBool true) (VInt 1) w
  = (Ret (VStr "retry"), after_send w Fixture2.first_request).
Proof.
  cbv zeta.
  apply (sign_in_rejected (RP := Fixture.toy_rsa) Fixture.minion (VInt 60) (VBool true) (VInt 1)
           (Fixture.world_of Fixture.files_first_contact [Some Fixture2.reply_rejected])
           (Fixture.world_of Fixture.files_first_contact [Some Fixture2.reply_rejected])
           Fixture.pki (VStr "tcp://10.0.0.1:4506") (VBool false) (VBool true)
           Fixture2.first_request Fixture2.reply_rejected (<["ret" := VBool false]> ∅) []);
    vm_compute; reflexivity.
Defined.

(** X25 at the fixture: the master the minion has pinned answers with
    its key and no signature; [verify_master] ends without a value. *)
Lemma sign_in_unverified_exits_witness :
  let w := Fixture.world_of Fixture.files_pinned
             [Some (Fixture.reply_plain "MASTER-KEY.public")] in
  fst (Auth.sign_in (RP := Fixture.toy_rsa) Fixture.minion (VInt 60) (VBool true) (VInt 1) w)
  = Exit 42.
Proof.
  cbv zeta.
  set (reply := Fixture.reply_plain "MASTER-KEY.public").
  set (w1 := World Fixture.files_pinned (fun n => ascii_of_nat n) 0 1 [Some reply] [] [] []).
  rewrite (sign_in_unverified_exits (RP := Fixture.toy_rsa) Fixture.minion
             (VInt 60) (VBool true) (VInt 1)
             (Fixture.world_of Fixture.files_pinned [Some reply]) w1
             (after_send w1 Fixture2.pinned_request)
             Fixture.pki (VStr "tcp://10.0.0.1:4506") VNone
             Fixture2.pinned_request reply []);
    vm_compute; reflexivity.
Defined.

(** X26 at the fixture: first contact, the reply is signed. *)
Lemma sign_in_accepts_witness :
  let w := Fixture.world_of Fixture.files_first_contact [Some Fixture2.reply_signed] in
  fst (Auth.sign_in (RP := Fixture.toy_rsa) Fixture.minion (VInt 60) (VBool true) (VInt 1) w)
  = Ret (VDict (<["publish_port" := VInt 4505]> (<["aes" := VStr "SESSION-KEY"]> ∅))).
Proof.
  cbv zeta.
  set (w := Fixture.world_of Fixture.files_first_contact [Some Fixture2.reply_signed]).
  rewrite (sign_in_accepts (RP := Fixture.toy_rsa) Fixture.minion
             (VInt 60) (VBool true) (VInt 1) w w
             (snd (Auth.verify_master (RP := Fixture.toy_rsa) Fixture.minion
                     Fixture2.reply_signed (after_send w Fixture2.first_request)))
             Fixture.pki (VStr "tcp://10.0.0.1:4506") (VStr "SESSION-KEY") (VInt 4505)
             Fixture2.first_request Fixture2.reply_signed []);
    vm_compute; reflexivity.
Defined.

(** X27 at the fixture: the fingerprint of the key just pinned is not
    the configured one. *)
Lemma sign_in_finger_mismatch_witness :
  let w := Fixture.world_of Fixture.files_first_contact [Some Fixture2.reply_signed] in
  fst (Auth.sign_in (RP := Fixture.toy_rsa) Fixture2.minion_fingerprinted
         (VInt 60) (VBool true) (VInt 1) w)
  = Exit 42.
Proof.
  cbv zeta.
  set (w := Fixture.world_of Fixture.files_first_contact [Some Fixture2.reply_signed]).
  rewrite (sign_in_finger_mismatch (RP := Fixture.toy_rsa) Fixture2.minion_fingerprinted
             (VInt 60) (VBool true) (VInt 1) w w
             (snd (Auth.verify_master (RP := Fixture.toy_rsa) Fixture2.minion_fingerprinted
                     Fixture2.reply_signed (after_send w Fixture2.first_request)))
             Fixture.pki "ab:cd:ef" (VStr "tcp://10.0.0.1:4506") (VStr "SESSION-KEY")
             Fixture2.first_request Fixture2.reply_signed []);
    try (vm_compute; reflexivity); vm_compute; discriminate.
Defined.

(** X28 at the fixture: nobody answers a minion in caller mode. *)
Lemma authenticate_caller_exits_witness :
  let w := Fixture.world_of Fixture.files_first_contact [] in
  SAuth.__authenticate (RP := Fixture.toy_rsa) 1
    Fixture2.minion_caller w
  = (Exit 2, after_send w Fixture2.first_request).
Proof.
  cbv zeta.
  apply (authenticate_caller_exits (RP := Fixture.toy_rsa) 0
           Fixture2.minion_caller
           (Fixture.world_of Fixture.files_first_contact []) _ 10 15);
    vm_compute; reflexivity.
Defined.

(** X30 at the fixture: wait time 10, no maximum. *)
Lemma authenticate_constant_wait_witness :
  let w := Fixture.world_of Fixture.files_first_contact [] in
  exists n : nat,
    w_slept (snd (SAuth.__authenticate (RP := Fixture.toy_rsa) 3
                    Fixture2.minion_steady w))
    = w_slept w ++ replicate n 10.
Proof.
  cbv zeta.
  apply (authenticate_constant_wait (RP := Fixture.toy_rsa) 3
           Fixture2.minion_steady (Fixture.world_of Fixture.files_first_contact []) 10 0).
  - vm_compute; reflexivity.
  - vm_compute; reflexivity.
  - lia.
Defined.
